(** * ri_is_up_bot: a website monitor reporting to Discord

    Shallow embedding of [ri_is_up_bot.py] and the properties of its probe,
    its failure counter, its notification rule and its configuration.

    Conventions of the embedding.
    - A Python [int] is a [Z] (unbounded, nothing wraps).
    - A Python [str] is a [string]; non-ASCII text is its UTF-8 bytes.
    - [os.environ], after [load_dotenv()], is a [gmap string string].
    - A call into a library ([aiohttp], [discord], [time]) cannot be read
      off this source: what it returns or raises in one cycle is an input,
      collected in the record [World].
    - The module globals [last_status] and [consecutive_failures] are the
      record [MonitorState], threaded through a state, log and exception
      monad [M]; every interaction with the outside is logged as an
      [event] in program order. *)

From Stdlib Require Import ZArith List Bool Ascii String DecimalString Lia.
From stdpp Require Import gmap strings.

Import ListNotations.
Local Open Scope string_scope.
Local Open Scope list_scope.
Local Open Scope Z_scope.

(** ** Exceptions *)

Module Exn.

(** The exception classes this program can meet.  [Forbidden], [NotFound]
    and [HTTPException] are discord's; [ClientError] is aiohttp's;
    [CancelledError], [KeyboardInterrupt] and [SystemExit] derive from
    [BaseException] only (for [CancelledError]: since Python 3.8, which
    the [discord.app_commands] of line 51 requires). *)
Inductive class : Type :=
| Forbidden | NotFound | HTTPException
| ClientError | TimeoutError | OSError
| ValueError | RuntimeError
| CancelledError | KeyboardInterrupt | SystemExit.

(** A raised exception: its class and what [str(e)] gives. *)
Record t : Type := Make { cls : class; str : string }.

(** [isinstance(e, Exception)]: what [except Exception] catches. *)
Definition is_Exception (e : t) : bool :=
  match cls e with
  | CancelledError | KeyboardInterrupt | SystemExit => false
  | _ => true
  end.

(** [isinstance(e, discord.Forbidden)]: [NotFound] and [Forbidden] are
    sibling subclasses of [HTTPException]. *)
Definition is_Forbidden (e : t) : bool :=
  match cls e with
  | Forbidden => true
  | _ => false
  end.

End Exn.

(** What a call gives back: a value, or a raised exception. *)
Inductive result (A : Type) : Type :=
| Returned (a : A)
| Raised (e : Exn.t).
Arguments Returned {A} a.
Arguments Raised {A} e.

(** ** Text *)

(** [str(n)] / [f"{n}"] for an [int]. *)
Definition str_of_int (n : Z) : string :=
  NilZero.string_of_int (Z.to_int n).

(** [s.startswith(p)]. *)
Definition startswith (s p : string) : bool := String.prefix p s.

(** ** [int(s)] on a [str]

    Base 10, on ASCII text, as the interpreter does with its default
    settings: the whitespace [int] knows (tab to carriage return, and the
    space) is dropped on both sides, then comes an optional sign, then
    decimal digits, where a single underscore may separate two digits; a
    number written with more than 4300 digits is refused.  Characters
    outside ASCII (other Unicode digits or spaces) are not modelled and
    are refused. *)

Definition is_space (c : ascii) : bool :=
  let n := N_of_ascii c in
  ((9 <=? n) && (n <=? 13) || (n =? 32))%N.

Definition digit_value (c : ascii) : option Z :=
  let n := N_of_ascii c in
  if ((48 <=? n) && (n <=? 57))%N then Some (Z.of_N n - 48) else None.

Fixpoint lstrip (s : string) : string :=
  match s with
  | String c s' => if is_space c then lstrip s' else s
  | EmptyString => EmptyString
  end.

(** The text with the whitespace at its end removed. *)
Fixpoint rstrip (s : string) : string :=
  match s with
  | EmptyString => EmptyString
  | String c s' =>
      match rstrip s' with
      | EmptyString => if is_space c then EmptyString else String c EmptyString
      | r => String c r
      end
  end.

(** Digits after the first one; [acc] is the value read so far. *)
Fixpoint int_digits (acc : Z) (s : string) : option Z :=
  match s with
  | EmptyString => Some acc
  | String c s' =>
      match digit_value c with
      | Some d => int_digits (10 * acc + d) s'
      | None =>
          if Ascii.eqb c "_"
          then match s' with
               | String c' s'' =>
                   match digit_value c' with
                   | Some d => int_digits (10 * acc + d) s''
                   | None => None
                   end
               | EmptyString => None
               end
          else None
      end
  end.

Definition int_unsigned (s : string) : option Z :=
  match s with
  | String c s' =>
      match digit_value c with
      | Some d => int_digits d s'
      | None => None
      end
  | EmptyString => None
  end.

Definition int_literal (s : string) : option Z :=
  match lstrip (rstrip s) with
  | String "-" s' => Z.opp <$> int_unsigned s'
  | String "+" s' => int_unsigned s'
  | t => int_unsigned t
  end.

(** The text after the whitespace and the sign: where the digits start. *)
Definition int_body (s : string) : string :=
  match lstrip (rstrip s) with
  | String "-" s' => s'
  | String "+" s' => s'
  | t => t
  end.

(** The number of digits in the run of digits and underscores at the head
    of the text; [None] when that run is malformed (an underscore that
    comes first, follows another one or ends the run, or no digit at all).
    [after_underscore] tells that a digit must come next. *)
Fixpoint scanned_digits (after_underscore : bool) (count : Z) (s : string)
  : option Z :=
  match s with
  | EmptyString => if after_underscore then None else Some count
  | String c s' =>
      match digit_value c with
      | Some _ => scanned_digits false (count + 1) s'
      | None =>
          if after_underscore then None
          else if Ascii.eqb c "_" then scanned_digits true count s'
          else Some count
      end
  end.

(** The default of [sys.get_int_max_str_digits()]. *)
Definition int_max_str_digits : Z := 4300.

(** [int(s)]: the value, or [ValueError].  A well-formed run of more than
    4300 digits is refused first, whatever follows it; any other text that
    is not a literal is refused with a text that quotes it (its [repr],
    which for text without quotes, backslashes or control characters is
    the text between single quotes). *)
Definition int (s : string) : result Z :=
  let by_literal :=
    match int_literal s with
    | Some n => Returned n
    | None => Raised (Exn.Make Exn.ValueError
                        ("invalid literal for int() with base 10: '" +:+ s +:+ "'"))
    end in
  match scanned_digits true 0 (int_body s) with
  | Some digits =>
      if int_max_str_digits <? digits
      then Raised (Exn.Make Exn.ValueError
                     ("Exceeds the limit (4300 digits) for integer string conversion: value has "
                      +:+ str_of_int digits
                      +:+ " digits; use sys.set_int_max_str_digits() to increase the limit"))
      else by_literal
  | None => by_literal
  end.

(** [os.getenv(name, default)]. *)
Definition getenv (environ : gmap string string) (name default : string) : string :=
  match environ !! name with
  | Some v => v
  | None => default
  end.

(** ** Configuration (lines 17-45) *)

Record Config : Type := {
  check_url : string;
  status_channel_id : Z;
  user_id : Z;
  check_interval : Z;
  website_name : string;
  website_home_url : string;
  debug : bool
}.

(** The dict literal [CONFIG = {...}], evaluated key by key at import time:
    the two [int(os.getenv(...))] entries may raise, the others are
    constants of the source. *)
Definition CONFIG (environ : gmap string string) : result Config :=
  match int (getenv environ "STATUS_CHANNEL_ID" "YOUR_PRIVATE_CHANNEL_ID") with
  | Raised e => Raised e
  | Returned channel =>
      match int (getenv environ "USER_ID" "YOUR_DISCORD_USER_ID") with
      | Raised e => Raised e
      | Returned user =>
          Returned {|
            check_url := "https://resilientinterface.com/resources/images/info-hub.png";
            status_channel_id := channel;
            user_id := user;
            check_interval := 3600;
            website_name := "ResilientInterface";
            website_home_url := "https://resilientinterface.com";
            debug := true
          |}
      end
  end.

Definition MAX_CONSECUTIVE_FAILURES : Z := 3.

(** ** Data *)

(** The dict [status] built by one cycle.  [timestamp] is the instant
    [datetime.datetime.now()] gave, as an opaque number. *)
Record Status : Type := {
  online : bool;
  response_time : Z;
  message : string;
  timestamp : Z
}.

(** The globals [last_status] and [consecutive_failures]. *)
Record MonitorState : Type := {
  last_status : option Status;
  consecutive_failures : Z
}.

(** Lines 43-44. *)
Definition initial_state : MonitorState :=
  {| last_status := None; consecutive_failures := 0 |}.

Module Response.
(** What the program reads of an HTTP response: [response.status] and
    the [content-type] entry of [response.headers], if there is one. *)
Record t : Type := { status : Z; content_type : option string }.
End Response.

Inductive Color : Type := green | red.

(** A [discord.Embed] as this program fills it. *)
Record Embed : Type := {
  title : string;
  url : string;
  description : string;
  color : Color;
  embed_timestamp : Z;
  fields : list (string * string);
  footer : string
}.

Definition add_field (name value : string) (e : Embed) : Embed :=
  {| title := title e; url := url e; description := description e;
     color := color e; embed_timestamp := embed_timestamp e;
     fields := fields e ++ [(name, value)]; footer := footer e |}.

Definition set_footer (text : string) (e : Embed) : Embed :=
  {| title := title e; url := url e; description := description e;
     color := color e; embed_timestamp := embed_timestamp e;
     fields := fields e; footer := text |}.

(** A resolved channel and a resolved user; of a user the program reads
    [user.name]. *)
Record Channel : Type := { channel_id : Z }.
Record User : Type := { name : string }.

(** Every interaction with the outside, in program order. *)
Inductive event : Type :=
| Print (line : string)
| HttpGet (target : string) (timeout : Z)
| GetChannel (id : Z)
| FetchUser (id : Z)
| ChannelSend (c : Channel) (e : Embed)
| UserSend (u : User) (e : Embed)
| BotRun (token : option string).

(** What the outside answers during one cycle.  [elapsed_ms] is the value
    of [int((time.time() - start_time) * 1000)] where the cycle evaluates
    it (line 81 or line 96).  [session_get] is the whole of lines 77-79:
    opening the session and the request; leaving the two [async with]
    blocks is taken not to raise. *)
Record World : Type := {
  now : Z;
  elapsed_ms : Z;
  session_get : string -> Z -> result Response.t;
  get_channel : Z -> option Channel;
  fetch_user : Z -> result (option User);
  channel_send : Channel -> Embed -> result unit;
  user_send : User -> Embed -> result unit
}.

(** ** The monad of a cycle: globals, log, exceptions *)

Definition M (A : Type) : Type :=
  MonitorState -> result A * MonitorState * list event.

Definition ret {A} (a : A) : M A := fun s => (Returned a, s, []).

Definition bind {A B} (m : M A) (f : A -> M B) : M B :=
  fun s =>
    match m s with
    | (Returned a, s1, t1) =>
        let '(r, s2, t2) := f a s1 in (r, s2, t1 ++ t2)
    | (Raised e, s1, t1) => (Raised e, s1, t1)
    end.

#[global] Instance M_ret : MRet M := @ret.
#[global] Instance M_bind : MBind M := fun A B f m => bind m f.

(** [try: body  except ...: handler]: [handler e] is [None] when no
    [except] clause matches [e], which then keeps propagating. *)
Definition try_except {A} (body : M A) (handler : Exn.t -> option (M A)) : M A :=
  fun s =>
    match body s with
    | (Returned a, s1, t1) => (Returned a, s1, t1)
    | (Raised e, s1, t1) =>
        match handler e with
        | Some h => let '(r, s2, t2) := h s1 in (r, s2, t1 ++ t2)
        | None => (Raised e, s1, t1)
        end
    end.

(** A library call: logged, then it returns or raises. *)
Definition call {A} (ev : event) (r : result A) : M A :=
  fun s => (r, s, [ev]).

Definition print (line : string) : M unit := call (Print line) (Returned tt).

Definition when (b : bool) (m : M unit) : M unit := if b then m else ret tt.

Definition get_last_status : M (option Status) :=
  fun s => (Returned (last_status s), s, []).

Definition get_consecutive_failures : M Z :=
  fun s => (Returned (consecutive_failures s), s, []).

Definition set_last_status (v : option Status) : M unit :=
  fun s => (Returned tt,
            {| last_status := v; consecutive_failures := consecutive_failures s |}, []).

Definition set_consecutive_failures (v : Z) : M unit :=
  fun s => (Returned tt, {| last_status := last_status s; consecutive_failures := v |}, []).

(** Projections of a run. *)
Definition outcome {A} (r : result A * MonitorState * list event) : result A := fst (fst r).
Definition state_after {A} (r : result A * MonitorState * list event) : MonitorState := snd (fst r).
Definition trace {A} (r : result A * MonitorState * list event) : list event := snd r.

(** ** The program *)

Section Cycle.

Variable cfg : Config.
Variable world : World.

(** [consecutive_failures += 1]. *)
Definition increment_failures : M unit :=
  n ← get_consecutive_failures; set_consecutive_failures (n + 1).

(** Lines 68-101 of [check_website]: the probe, from the fresh [status]
    dict to the end of the [try] statement.  The result is the [status]
    dict as it stands at line 102. *)
Definition probe : M Status :=
  let status :=
    {| online := false; response_time := 0; message := "";
       timestamp := now world |} in
  try_except
    (response ← call (HttpGet (check_url cfg) 10)
                     (session_get world (check_url cfg) 10);
     let response_time := elapsed_ms world in
     let content_type := default "" (Response.content_type response) in
     if (Response.status response =? 200) && startswith content_type "image/"
     then
       set_consecutive_failures 0;;
       mret {| online := true;
               response_time := response_time;
               message := website_name cfg +:+ " is online. Response time: "
                          +:+ str_of_int response_time +:+ "ms";
               timestamp := timestamp status |}
     else
       increment_failures;;
       mret {| online := false;
               response_time := response_time;
               message := website_name cfg +:+ " returned status "
                          +:+ str_of_int (Response.status response)
                          +:+ " but invalid content type: " +:+ content_type;
               timestamp := timestamp status |})
    (fun e =>
       if Exn.is_Exception e
       then Some
              (increment_failures;;
               when (debug cfg)
                    (print ("Error checking website: " +:+ Exn.str e));;
               mret {| online := false;
                       response_time := elapsed_ms world;
                       message := website_name cfg +:+ " is down. Error: "
                                  +:+ Exn.str e;
                       timestamp := timestamp status |})
       else None).

(** The embed of lines 128-139. *)
Definition status_embed (status : Status) : Embed :=
  set_footer "Website Monitor Bot"
    (add_field "Checked URL" (check_url cfg)
       (add_field "Response Time" (str_of_int (response_time status) +:+ "ms")
          (add_field "Status"
             (if online status then "✅ Online" else "❌ Offline")
             {| title := website_name cfg +:+ " Status Update";
                url := website_home_url cfg;
                description := message status;
                color := if online status then green else red;
                embed_timestamp := timestamp status;
                fields := [];
                footer := "" |}))).

(** Lines 114-150. *)
Definition report_status (status : Status) : M unit :=
  status_channel ← call (GetChannel (status_channel_id cfg))
                        (Returned (get_channel world (status_channel_id cfg)));
  user ← call (FetchUser (user_id cfg)) (fetch_user world (user_id cfg));
  match status_channel with
  | None =>
      print ("Cannot find channel with ID " +:+ str_of_int (status_channel_id cfg))
  | Some status_channel =>
      match user with
      | None =>
          print ("Cannot find user with ID " +:+ str_of_int (user_id cfg))
      | Some user =>
          let embed := status_embed status in
          call (ChannelSend status_channel embed)
               (channel_send world status_channel embed);;
          try_except
            (call (UserSend user embed) (user_send world user embed))
            (fun e =>
               if Exn.is_Forbidden e
               then Some (print ("Cannot send DM to user " +:+ name user
                                 +:+ ". They may have DMs disabled."))
               else if Exn.is_Exception e
               then Some (print ("Error sending DM to user: " +:+ Exn.str e))
               else None)
      end
  end.

(** The condition of the [if] at lines 107-109, on [last_status], the
    cycle's [status] and the counter as the probe left it. *)
Definition should_report (last : option Status) (status : Status)
           (failures : Z) : bool :=
  match last with
  | None => true
  | Some last => negb (Bool.eqb (online last) (online status))
  end
  || ((MAX_CONSECUTIVE_FAILURES <=? failures) && negb (online status)).

(** Lines 64-112: one cycle. *)
Definition check_website : M unit :=
  status ← probe;
  when (debug cfg) (print (message status));;
  last ← get_last_status;
  failures ← get_consecutive_failures;
  when (should_report last status failures) (report_status status);;
  set_last_status (Some status).

End Cycle.

(** ** The periodic loop and the module body *)

(** The cycles run on [worlds] in order (one world per firing of the
    timer), each starting from the globals the one before left.  Whether
    the timer fires again after a cycle raised is decided by
    [discord.ext.tasks], not by this source; the globals are what the
    cycle left in either case. *)
Fixpoint cycles (cfg : Config) (worlds : list World) (s : MonitorState)
  : list (result unit * MonitorState * list event) :=
  match worlds with
  | [] => []
  | w :: ws =>
      let r := check_website cfg w s in
      r :: cycles cfg ws (state_after r)
  end.

(** The globals after the cycles of [worlds]. *)
Definition final_state (cfg : Config) (worlds : list World) (s : MonitorState)
  : MonitorState :=
  fold_left (fun s w => state_after (check_website cfg w s)) worlds s.

(** The module body from top to bottom: [CONFIG] is built at line 18,
    [bot.run(os.getenv("DISCORD_BOT_TOKEN"))] is line 164.  What [bot.run]
    does with the token is the library's, given as [bot_run]. *)
Definition main (environ : gmap string string)
           (bot_run : option string -> result unit)
  : result unit * list event :=
  match CONFIG environ with
  | Raised e => (Raised e, [])
  | Returned _ =>
      let token := environ !! "DISCORD_BOT_TOKEN" in
      (bot_run token, [BotRun token])
  end.

(** ** Observations on a run *)

Definition is_GetChannel (ev : event) : bool :=
  match ev with GetChannel _ => true | _ => false end.

Definition is_Print (ev : event) : bool :=
  match ev with Print _ => true | _ => false end.

Definition is_ChannelSend (ev : event) : bool :=
  match ev with ChannelSend _ _ => true | _ => false end.

(** An interaction with the direct-message recipient: looking the user up
    or sending to the user. *)
Definition is_user_interaction (ev : event) : bool :=
  match ev with FetchUser _ | UserSend _ _ => true | _ => false end.

(** [report_status] was invoked: [bot.get_channel] is its first statement
    and is called nowhere else. *)
Definition reported {A} (r : result A * MonitorState * list event) : bool :=
  existsb is_GetChannel (trace r).

(** What the probe of a cycle in [w] observes: [Some] of the [online] flag
    of its status record, [None] when the probe lets an exception through
    and yields no record. *)
Definition observation (cfg : Config) (w : World) : option bool :=
  match outcome (probe cfg w initial_state) with
  | Returned status => Some (online status)
  | Raised _ => None
  end.

(** In the log [t], every interaction with the direct-message recipient
    comes after a channel send. *)
Definition channel_send_first (t : list event) : Prop :=
  forall before ev after,
    t = before ++ ev :: after ->
    is_user_interaction ev = true ->
    existsb is_ChannelSend before = true.

(** The setting [f] of the configuration varies with the environment. *)
Definition environment_sourced {A} (f : Config -> A) : Prop :=
  exists environ1 environ2 cfg1 cfg2,
    CONFIG environ1 = Returned cfg1 /\
    CONFIG environ2 = Returned cfg2 /\
    f cfg1 <> f cfg2.

Definition is_UserSend (ev : event) : bool :=
  match ev with UserSend _ _ => true | _ => false end.

Definition is_HttpGet (ev : event) : bool :=
  match ev with HttpGet _ _ => true | _ => false end.

(** The two globals agree: the counter is not negative, and it is 0
    exactly when the stored record is online (with nothing stored yet, it
    is 0). *)
Definition consistent (s : MonitorState) : Prop :=
  0 <= consecutive_failures s
  /\ match last_status s with
     | Some status => online status = true <-> consecutive_failures s = 0
     | None => consecutive_failures s = 0
     end.

Definition is_FetchUser (ev : event) : bool :=
  match ev with FetchUser _ => true | _ => false end.

(** [c.isspace()] for an ASCII character: besides the whitespace [int]
    drops, the four separators 28 to 31. *)
Definition isspace (c : ascii) : bool :=
  let n := N_of_ascii c in
  ((9 <=? n) && (n <=? 13) || (28 <=? n) && (n <=? 32))%N.

(** The text is empty or all whitespace: [not s.strip()]. *)
Definition blank (s : string) : Prop :=
  Forall (fun c => isspace c = true) (list_ascii_of_string s).

(** Every character of the text is whitespace that [int] drops. *)
Definition whitespace (s : string) : Prop :=
  Forall (fun c => is_space c = true) (list_ascii_of_string s).


(** ** Worlds that differ in one answer *)

(** [w], except that [bot.fetch_user] answers [r]. *)
Definition with_fetch_user (r : result (option User)) (w : World) : World :=
  {| now := now w; elapsed_ms := elapsed_ms w; session_get := session_get w;
     get_channel := get_channel w;
     fetch_user := fun _ => r;
     channel_send := channel_send w; user_send := user_send w |}.

(** [w], except that sending to the channel answers [r]. *)
Definition with_channel_send (r : result unit) (w : World) : World :=
  {| now := now w; elapsed_ms := elapsed_ms w; session_get := session_get w;
     get_channel := get_channel w; fetch_user := fetch_user w;
     channel_send := fun _ _ => r;
     user_send := user_send w |}.

(** [w], except that sending to the user answers [r]. *)
Definition with_user_send (r : result unit) (w : World) : World :=
  {| now := now w; elapsed_ms := elapsed_ms w; session_get := session_get w;
     get_channel := get_channel w; fetch_user := fetch_user w;
     channel_send := channel_send w;
     user_send := fun _ _ => r |}.

(** ** Sample inputs *)

Module Sample.

Definition environ : gmap string string :=
  <["STATUS_CHANNEL_ID" := "12"]> (<["USER_ID" := "7"]>
    (<["DISCORD_BOT_TOKEN" := "secret"]> ∅)).

(** A second environment, with other identifiers and another token. *)
Definition other_environ : gmap string string :=
  <["STATUS_CHANNEL_ID" := "13"]> (<["USER_ID" := "8"]>
    (<["DISCORD_BOT_TOKEN" := "other"]> (<["CHECK_INTERVAL" := "60"]> ∅))).

(** An environment with a token and no identifiers. *)
Definition token_only : gmap string string :=
  <["DISCORD_BOT_TOKEN" := "secret"]> ∅.

Definition cfg : Config :=
  {| check_url := "https://resilientinterface.com/resources/images/info-hub.png";
     status_channel_id := 12;
     user_id := 7;
     check_interval := 3600;
     website_name := "ResilientInterface";
     website_home_url := "https://resilientinterface.com";
     debug := true |}.

Definition image : Response.t :=
  {| Response.status := 200; Response.content_type := Some "image/png" |}.

Definition html : Response.t :=
  {| Response.status := 200; Response.content_type := Some "text/html" |}.

Definition bob : User := {| name := "bob" |}.

(** A world where the site answers [r] and both deliveries work. *)
Definition answering (r : result Response.t) : World :=
  {| now := 1000;
     elapsed_ms := 42;
     session_get := fun _ _ => r;
     get_channel := fun id => Some {| channel_id := id |};
     fetch_user := fun _ => Returned (Some bob);
     channel_send := fun _ _ => Returned tt;
     user_send := fun _ _ => Returned tt |}.

Definition up : World := answering (Returned image).
Definition down : World :=
  answering (Raised (Exn.Make Exn.TimeoutError "timed out")).

(** The site is down and the channel send fails on the connection. *)
Definition down_unsent : World :=
  with_channel_send
    (Raised (Exn.Make Exn.ClientError "Cannot connect to host discord.com:443"))
    down.

Definition up_status : Status :=
  {| online := true; response_time := 42;
     message := "ResilientInterface is online. Response time: 42ms";
     timestamp := 1000 |}.

Definition down_status : Status :=
  {| online := false; response_time := 42;
     message := "ResilientInterface is down. Error: timed out";
     timestamp := 1000 |}.

End Sample.

(** * Properties *)

(** ** Runs of the three parts of a cycle, case by case *)

Section Runs.

Variable cfg : Config.
Variable w : World.

(** The probe never touches [last_status]; it logs the request, and the
    debug line of line 101 when it catches an exception. *)
Lemma probe_run (s : MonitorState) :
  probe cfg w s =
    match session_get w (check_url cfg) 10 with
    | Returned response =>
        let content_type := default "" (Response.content_type response) in
        if (Response.status response =? 200) && startswith content_type "image/"
        then
          (Returned
             {| online := true;
                response_time := elapsed_ms w;
                message := website_name cfg +:+ " is online. Response time: "
                           +:+ str_of_int (elapsed_ms w) +:+ "ms";
                timestamp := now w |},
           {| last_status := last_status s; consecutive_failures := 0 |},
           [HttpGet (check_url cfg) 10])
        else
          (Returned
             {| online := false;
                response_time := elapsed_ms w;
                message := website_name cfg +:+ " returned status "
                           +:+ str_of_int (Response.status response)
                           +:+ " but invalid content type: " +:+ content_type;
                timestamp := now w |},
           {| last_status := last_status s;
              consecutive_failures := consecutive_failures s + 1 |},
           [HttpGet (check_url cfg) 10])
    | Raised e =>
        if Exn.is_Exception e
        then
          (Returned
             {| online := false;
                response_time := elapsed_ms w;
                message := website_name cfg +:+ " is down. Error: " +:+ Exn.str e;
                timestamp := now w |},
           {| last_status := last_status s;
              consecutive_failures := consecutive_failures s + 1 |},
           HttpGet (check_url cfg) 10
             :: (if debug cfg
                 then [Print ("Error checking website: " +:+ Exn.str e)]
                 else []))
        else (Raised e, s, [HttpGet (check_url cfg) 10])
    end.
Proof.
  unfold probe, try_except, call, mbind, M_bind, bind.
  destruct (session_get w (check_url cfg) 10) as [response|e]; cbn beta iota.
  - destruct ((Response.status response =? 200) && _); reflexivity.
  - destruct (Exn.is_Exception e); [|reflexivity].
    destruct (debug cfg); reflexivity.
Qed.

(** What the probe returns does not depend on the globals. *)
Lemma probe_outcome_any_state (s s' : MonitorState) :
  outcome (probe cfg w s) = outcome (probe cfg w s').
Proof.
  rewrite !probe_run.
  destruct (session_get w (check_url cfg) 10) as [response|e]; cbn beta iota zeta.
  - destruct (_ && _); reflexivity.
  - destruct (Exn.is_Exception e); reflexivity.
Qed.

(** The probe leaves [last_status] alone and logs no channel lookup. *)
Lemma probe_frame (s : MonitorState) :
  last_status (state_after (probe cfg w s)) = last_status s
  /\ existsb is_GetChannel (trace (probe cfg w s)) = false.
Proof.
  rewrite probe_run.
  destruct (session_get w (check_url cfg) 10) as [response|e]; cbn beta iota zeta.
  - destruct (_ && _); split; reflexivity.
  - destruct (Exn.is_Exception e); [|split; reflexivity].
    destruct (debug cfg); split; reflexivity.
Qed.

(** [report_status], case by case. *)
Lemma report_status_run (status : Status) (s : MonitorState) :
  report_status cfg w status s =
    let lookups := [GetChannel (status_channel_id cfg); FetchUser (user_id cfg)] in
    match fetch_user w (user_id cfg) with
    | Raised e => (Raised e, s, lookups)
    | Returned user =>
        match get_channel w (status_channel_id cfg) with
        | None =>
            (Returned tt, s,
             lookups ++ [Print ("Cannot find channel with ID "
                                +:+ str_of_int (status_channel_id cfg))])
        | Some status_channel =>
            match user with
            | None =>
                (Returned tt, s,
                 lookups ++ [Print ("Cannot find user with ID "
                                    +:+ str_of_int (user_id cfg))])
            | Some user =>
                let embed := status_embed cfg status in
                let sent := lookups ++ [ChannelSend status_channel embed] in
                match channel_send w status_channel embed with
                | Raised e => (Raised e, s, sent)
                | Returned _ =>
                    match user_send w user embed with
                    | Returned _ => (Returned tt, s, sent ++ [UserSend user embed])
                    | Raised e =>
                        if Exn.is_Forbidden e
                        then (Returned tt, s,
                              sent ++ [UserSend user embed;
                                       Print ("Cannot send DM to user " +:+ name user
                                              +:+ ". They may have DMs disabled.")])
                        else if Exn.is_Exception e
                        then (Returned tt, s,
                              sent ++ [UserSend user embed;
                                       Print ("Error sending DM to user: "
                                              +:+ Exn.str e)])
                        else (Raised e, s, sent ++ [UserSend user embed])
                    end
                end
            end
        end
    end.
Proof.
  unfold report_status, try_except, call, print, call, mbind, M_bind, bind.
  destruct (fetch_user w (user_id cfg)) as [[user|]|e];
    destruct (get_channel w (status_channel_id cfg)) as [ch|];
    cbn beta iota zeta; try reflexivity.
  destruct (channel_send w ch (status_embed cfg status)) as [[]|e];
    cbn beta iota zeta; [|reflexivity].
  destruct (user_send w user (status_embed cfg status)) as [[]|e];
    cbn beta iota zeta; [reflexivity|].
  destruct (Exn.is_Forbidden e); [reflexivity|].
  destruct (Exn.is_Exception e); reflexivity.
Qed.

(** [report_status] never writes the globals, and its log starts with
    the two lookups. *)
Lemma report_status_frame (status : Status) (s : MonitorState) :
  state_after (report_status cfg w status s) = s
  /\ exists rest,
      trace (report_status cfg w status s) =
        GetChannel (status_channel_id cfg) :: FetchUser (user_id cfg) :: rest.
Proof.
  rewrite report_status_run. cbn zeta.
  destruct (fetch_user w (user_id cfg)) as [[user|]|e];
    destruct (get_channel w (status_channel_id cfg)) as [ch|];
    cbn beta iota; try (split; [reflexivity|eexists; reflexivity]).
  destruct (channel_send w ch _) as [[]|e];
    cbn beta iota; try (split; [reflexivity|eexists; reflexivity]).
  destruct (user_send w user _) as [[]|e];
    cbn beta iota; try (split; [reflexivity|eexists; reflexivity]).
  destruct (Exn.is_Forbidden e); [split; [reflexivity|eexists; reflexivity]|].
  destruct (Exn.is_Exception e); split; try reflexivity; eexists; reflexivity.
Qed.

(** One cycle, in terms of its probe and its report. *)
Lemma check_website_run (s : MonitorState) :
  check_website cfg w s =
    match probe cfg w s with
    | (Raised e, s1, t1) => (Raised e, s1, t1)
    | (Returned status, s1, t1) =>
        let t2 := t1 ++ (if debug cfg then [Print (message status)] else []) in
        if should_report (last_status s1) status (consecutive_failures s1)
        then
          match report_status cfg w status s1 with
          | (Returned _, s2, t3) =>
              (Returned tt,
               {| last_status := Some status;
                  consecutive_failures := consecutive_failures s2 |},
               t2 ++ t3)
          | (Raised e, s2, t3) => (Raised e, s2, t2 ++ t3)
          end
        else
          (Returned tt,
           {| last_status := Some status;
              consecutive_failures := consecutive_failures s1 |},
           t2)
    end.
Proof.
  unfold check_website, mbind, M_bind, bind.
  destruct (probe cfg w s) as [[[status|e] s1] t1]; [|reflexivity].
  unfold when, print, call, get_last_status, get_consecutive_failures,
    set_last_status, mret, M_ret, ret.
  destruct (debug cfg); cbn beta iota zeta;
    destruct (should_report _ _ _); cbn beta iota zeta;
    try (destruct (report_status cfg w status s1) as [[[[]|e] s2] t3];
         cbn beta iota zeta);
    rewrite ?app_nil_r, <- ?app_assoc; reflexivity.
Qed.

End Runs.

(** ** The decision rule *)

Lemma should_report_iff (last : option Status) (status : Status) (failures : Z) :
  should_report last status failures = true <->
    (last = None
     \/ (exists previous, last = Some previous /\ online previous <> online status)
     \/ (online status = false /\ MAX_CONSECUTIVE_FAILURES <= failures)).
Proof.
  unfold should_report. rewrite orb_true_iff, andb_true_iff, negb_true_iff, Z.leb_le.
  split.
  - intros [H|[H1 H2]]; [|right; right; split; assumption].
    destruct last as [previous|]; [|left; reflexivity].
    right; left. exists previous. split; [reflexivity|].
    apply negb_true_iff, eqb_false_iff in H. exact H.
  - intros [->|[(previous & -> & Hne)|[H1 H2]]].
    + left; reflexivity.
    + left. apply negb_true_iff, eqb_false_iff. exact Hne.
    + right; split; assumption.
Qed.

(** Whether a cycle reports is the value of the condition of lines
    107-109 on the old [last_status], the new record and the new counter. *)
Lemma check_website_reported (cfg : Config) (w : World) (s : MonitorState) :
  match probe cfg w s with
  | (Returned status, s1, _) =>
      reported (check_website cfg w s)
      = should_report (last_status s) status (consecutive_failures s1)
  | (Raised _, _, _) => reported (check_website cfg w s) = false
  end.
Proof.
  unfold reported. rewrite check_website_run.
  destruct (probe_frame cfg w s) as [Hlast Hquiet].
  destruct (probe cfg w s) as [[[status|e] s1] t1];
    unfold state_after, trace in *; cbn [fst snd] in *; [|exact Hquiet].
  rewrite <- Hlast.
  assert (Ht2 : existsb is_GetChannel
                  (t1 ++ (if debug cfg then [Print (message status)] else []))
                = false).
  { rewrite existsb_app, Hquiet. destruct (debug cfg); reflexivity. }
  cbn zeta.
  destruct (should_report (last_status s1) status (consecutive_failures s1)).
  - destruct (report_status_frame cfg w status s1) as [_ [rest Hrest]].
    destruct (report_status cfg w status s1) as [[[[]|e] s2] t3];
      unfold trace in Hrest; cbn [snd] in *; subst t3;
      rewrite existsb_app, Ht2; reflexivity.
  - cbn [snd]. exact Ht2.
Qed.

(** C1. A cycle whose probe yields a status record invokes [report_status]
    exactly when [last_status] is [None] (so the first cycle always
    reports), or its [online] flag differs from the new record's, or the
    new record is offline and the counter, as the probe left it, has
    reached [MAX_CONSECUTIVE_FAILURES]; in every other case, and when the
    probe yields no record, nothing is reported. *)
Theorem check_website_reports_iff (cfg : Config) (w : World) (s : MonitorState) :
  match probe cfg w s with
  | (Returned status, s1, _) =>
      reported (check_website cfg w s) = true <->
        (last_status s = None
         \/ (exists previous,
                last_status s = Some previous /\ online previous <> online status)
         \/ (online status = false
             /\ MAX_CONSECUTIVE_FAILURES <= consecutive_failures s1))
  | (Raised _, _, _) => reported (check_website cfg w s) = false
  end.
Proof.
  pose proof (check_website_reported cfg w s) as H.
  destruct (probe cfg w s) as [[[status|e] s1] t1]; [|exact H].
  rewrite H. apply should_report_iff.
Qed.

(** ** The globals after a cycle *)

(** The counter after a cycle is the counter after its probe: neither the
    report nor the final assignment changes it, whatever the report did. *)
Lemma check_website_counter_after_probe (cfg : Config) (w : World) (s : MonitorState) :
  consecutive_failures (state_after (check_website cfg w s))
  = consecutive_failures (state_after (probe cfg w s)).
Proof.
  rewrite check_website_run.
  destruct (probe cfg w s) as [[[status|e] s1] t1]; [|reflexivity].
  cbn zeta. destruct (should_report _ _ _); [|reflexivity].
  destruct (report_status_frame cfg w status s1) as [Hs _].
  destruct (report_status cfg w status s1) as [[[[]|e] s2] t3];
    unfold state_after in *; cbn [fst snd] in *; subst s2; reflexivity.
Qed.

(** One cycle moves the counter by the observation of its probe alone. *)
Lemma check_website_counter (cfg : Config) (w : World) (s : MonitorState) :
  consecutive_failures (state_after (check_website cfg w s))
  = match observation cfg w with
    | Some true => 0
    | Some false => consecutive_failures s + 1
    | None => consecutive_failures s
    end.
Proof.
  rewrite check_website_counter_after_probe. unfold observation.
  rewrite (probe_outcome_any_state cfg w initial_state s), probe_run.
  destruct (session_get w (check_url cfg) 10) as [response|e]; cbn beta iota zeta.
  - destruct (_ && _); reflexivity.
  - destruct (Exn.is_Exception e); reflexivity.
Qed.

Lemma final_state_snoc (cfg : Config) (ws : list World) (w : World) (s : MonitorState) :
  final_state cfg (ws ++ [w]) s
  = state_after (check_website cfg w (final_state cfg ws s)).
Proof. unfold final_state. rewrite fold_left_app. reflexivity. Qed.

Lemma offline_run_counter (cfg : Config) (ws : list World) :
  Forall (fun w => observation cfg w = Some false) ws ->
  forall s,
    consecutive_failures (final_state cfg ws s)
    = consecutive_failures s + Z.of_nat (length ws).
Proof.
  induction 1 as [|w ws Hw _ IH]; intros s.
  - cbn. lia.
  - change (final_state cfg (w :: ws) s)
      with (final_state cfg ws (state_after (check_website cfg w s))).
    rewrite IH, check_website_counter, Hw.
    cbn [length]. lia.
Qed.

(** C2. Every cycle moves the counter by what its probe observed, whatever
    the globals were: an online observation sets it to 0, an offline one
    (a wrong status or content type, or a caught exception) adds exactly 1.
    Hence after the cycles of [offline], all observed offline, the counter
    has grown by their number, which from a counter at 0 is their number;
    and the next cycle, observed online, puts it back to 0. *)
Theorem counter_invariant (cfg : Config) (offline : list World) (w_online : World) :
  Forall (fun w => observation cfg w = Some false) offline ->
  observation cfg w_online = Some true ->
  (forall w s,
      observation cfg w = Some true ->
      consecutive_failures (state_after (check_website cfg w s)) = 0)
  /\ (forall w s,
         observation cfg w = Some false ->
         consecutive_failures (state_after (check_website cfg w s))
         = consecutive_failures s + 1)
  /\ (forall s,
         consecutive_failures (final_state cfg offline s)
         = consecutive_failures s + Z.of_nat (length offline))
  /\ consecutive_failures (final_state cfg offline initial_state)
     = Z.of_nat (length offline)
  /\ (forall s,
         consecutive_failures (final_state cfg (offline ++ [w_online]) s) = 0).
Proof.
  intros Hoff Hon. repeat split.
  - intros w s H. rewrite check_website_counter, H. reflexivity.
  - intros w s H. rewrite check_website_counter, H. reflexivity.
  - apply offline_run_counter, Hoff.
  - rewrite (offline_run_counter cfg offline Hoff). reflexivity.
  - intros s. rewrite final_state_snoc, check_website_counter, Hon. reflexivity.
Qed.

Lemma counter_invariant_witness :
  let offline := [Sample.down; Sample.down; Sample.down] in
  Forall (fun w => observation Sample.cfg w = Some false) offline
  /\ observation Sample.cfg Sample.up = Some true
  /\ consecutive_failures (final_state Sample.cfg offline initial_state) = 3
  /\ consecutive_failures
       (final_state Sample.cfg (offline ++ [Sample.up]) initial_state) = 0.
Proof.
  assert (Hoff : Forall (fun w => observation Sample.cfg w = Some false)
                   [Sample.down; Sample.down; Sample.down]).
  { repeat constructor. }
  assert (Hon : observation Sample.cfg Sample.up = Some true) by reflexivity.
  destruct (counter_invariant Sample.cfg _ Sample.up Hoff Hon)
    as (_ & _ & _ & Hn & Hzero).
  cbv zeta. split; [exact Hoff|]. split; [exact Hon|].
  split; [exact Hn | apply Hzero].
Defined.

(** ** Cycles that return *)

(** A cycle that returns has stored the record of its probe in
    [last_status], whether or not it reported. *)
Lemma check_website_returned (cfg : Config) (w : World) (s : MonitorState) :
  outcome (check_website cfg w s) = Returned tt ->
  exists status,
    outcome (probe cfg w s) = Returned status
    /\ last_status (state_after (check_website cfg w s)) = Some status.
Proof.
  rewrite check_website_run.
  destruct (probe cfg w s) as [[[status|e] s1] t1];
    unfold outcome, state_after; cbn [fst snd]; [|discriminate].
  intros Hret. exists status. split; [reflexivity|].
  cbn zeta in *.
  destruct (should_report _ _ _); [|reflexivity].
  destruct (report_status cfg w status s1) as [[[[]|e] s2] t3];
    cbn [fst snd] in *; [reflexivity|discriminate].
Qed.

(** A cycle that returns, seen from the observation [b] of its probe. *)
Lemma check_website_step (cfg : Config) (w : World) (s : MonitorState) (b : bool) :
  observation cfg w = Some b ->
  outcome (check_website cfg w s) = Returned tt ->
  exists status,
    online status = b
    /\ last_status (state_after (check_website cfg w s)) = Some status
    /\ consecutive_failures (state_after (check_website cfg w s))
       = (if b then 0 else consecutive_failures s + 1)
    /\ reported (check_website cfg w s)
       = should_report (last_status s) status
           (if b then 0 else consecutive_failures s + 1).
Proof.
  intros Hobs Hret.
  destruct (check_website_returned cfg w s Hret) as (status & Hprobe & Hlast).
  pose proof (check_website_counter cfg w s) as Hcount.
  pose proof (check_website_counter_after_probe cfg w s) as Hafter.
  pose proof (check_website_reported cfg w s) as Hrep.
  rewrite Hobs in Hcount.
  unfold observation in Hobs.
  rewrite (probe_outcome_any_state cfg w initial_state s), Hprobe in Hobs.
  injection Hobs as Hb.
  assert (Hc : consecutive_failures (state_after (check_website cfg w s))
               = if b then 0 else consecutive_failures s + 1).
  { rewrite Hcount. destruct b; reflexivity. }
  exists status. repeat split; try assumption.
  rewrite <- Hc, Hafter.
  destruct (probe cfg w s) as [[[status'|e] s1] t1];
    unfold outcome, state_after in *; cbn [fst snd] in *; [|discriminate].
  injection Hprobe as ->. exact Hrep.
Qed.

(** X19. With the threshold of the source, which is 3, five cycles from
    the initial globals whose probes observe online, then offline four
    times, and which all return, report on cycles 1, 2, 4 and 5 and not on
    cycle 3. *)
Theorem scenario_threshold_three (cfg : Config) (w1 w2 w3 w4 w5 : World) :
  map (observation cfg) [w1; w2; w3; w4; w5]
  = [Some true; Some false; Some false; Some false; Some false] ->
  Forall (fun r => outcome r = Returned tt)
         (cycles cfg [w1; w2; w3; w4; w5] initial_state) ->
  MAX_CONSECUTIVE_FAILURES = 3
  /\ map reported (cycles cfg [w1; w2; w3; w4; w5] initial_state)
     = [true; true; false; true; true].
Proof.
  intros Hobs Hret. split; [reflexivity|].
  injection Hobs as H1 H2 H3 H4 H5.
  cbn [cycles] in *.
  set (r1 := check_website cfg w1 initial_state) in *.
  set (r2 := check_website cfg w2 (state_after r1)) in *.
  set (r3 := check_website cfg w3 (state_after r2)) in *.
  set (r4 := check_website cfg w4 (state_after r3)) in *.
  set (r5 := check_website cfg w5 (state_after r4)) in *.
  inversion_clear Hret as [|? ? R1 Hret1].
  inversion_clear Hret1 as [|? ? R2 Hret2].
  inversion_clear Hret2 as [|? ? R3 Hret3].
  inversion_clear Hret3 as [|? ? R4 Hret4].
  inversion_clear Hret4 as [|? ? R5 _].
  destruct (check_website_step cfg w1 _ _ H1 R1) as (st1 & O1 & L1 & C1 & P1).
  destruct (check_website_step cfg w2 _ _ H2 R2) as (st2 & O2 & L2 & C2 & P2).
  destruct (check_website_step cfg w3 _ _ H3 R3) as (st3 & O3 & L3 & C3 & P3).
  destruct (check_website_step cfg w4 _ _ H4 R4) as (st4 & O4 & L4 & C4 & P4).
  destruct (check_website_step cfg w5 _ _ H5 R5) as (st5 & O5 & L5 & C5 & P5).
  fold r1 in L1, C1, P1. fold r2 in L2, C2, P2. fold r3 in L3, C3, P3.
  fold r4 in L4, C4, P4. fold r5 in P5.
  cbn [map]. rewrite P1, P2, P3, P4, P5.
  rewrite L1, L2, L3, L4, C4, C3, C2, C1.
  unfold should_report. rewrite O1, O2, O3, O4, O5. reflexivity.
Qed.

Lemma scenario_threshold_three_witness :
  let worlds := [Sample.up; Sample.down; Sample.down; Sample.down; Sample.down] in
  map (observation Sample.cfg) worlds
  = [Some true; Some false; Some false; Some false; Some false]
  /\ Forall (fun r => outcome r = Returned tt)
            (cycles Sample.cfg worlds initial_state)
  /\ map reported (cycles Sample.cfg worlds initial_state)
     = [true; true; false; true; true].
Proof.
  assert (Hobs : map (observation Sample.cfg)
                   [Sample.up; Sample.down; Sample.down; Sample.down; Sample.down]
                 = [Some true; Some false; Some false; Some false; Some false])
    by reflexivity.
  assert (Hret : Forall (fun r => outcome r = Returned tt)
                   (cycles Sample.cfg
                      [Sample.up; Sample.down; Sample.down; Sample.down; Sample.down]
                      initial_state)).
  { repeat constructor. }
  split; [exact Hobs|]. split; [exact Hret|].
  exact (proj2 (scenario_threshold_three Sample.cfg _ _ _ _ _ Hobs Hret)).
Defined.

(** ** Reports that raise *)

(** C3. The scenario of the claim does not come out when a report raises.
    With the threshold of the source, which is 3, and probes that observe
    online, then offline four times: if the channel send of cycle 2 fails
    on the connection, cycle 2 raises before it stores its record, so
    [last_status] still holds the online record of cycle 1; cycle 3 then
    sees a change again and reports, with the counter at 2 only.  All
    five cycles report. *)
Theorem scenario_threshold_three_stale_last_status :
  let worlds :=
    [Sample.up; Sample.down_unsent; Sample.down; Sample.down; Sample.down] in
  let runs := cycles Sample.cfg worlds initial_state in
  MAX_CONSECUTIVE_FAILURES = 3
  /\ map (observation Sample.cfg) worlds
     = [Some true; Some false; Some false; Some false; Some false]
  /\ map outcome runs
     = [Returned tt;
        Raised (Exn.Make Exn.ClientError "Cannot connect to host discord.com:443");
        Returned tt; Returned tt; Returned tt]
  /\ map state_after (firstn 2 runs)
     = [{| last_status := Some Sample.up_status; consecutive_failures := 0 |};
        {| last_status := Some Sample.up_status; consecutive_failures := 1 |}]
  /\ map (fun r => consecutive_failures (state_after r)) runs = [0; 1; 2; 3; 4]
  /\ map reported runs = [true; true; true; true; true].
Proof. cbv zeta. repeat split; reflexivity. Qed.

(** C4. The cycle does not replace [last_status] when its report raises:
    with the site online before and down now, and a channel send refused
    with [Forbidden], the probe yields the offline record and counts the
    failure, the cycle reports, the exception leaves [check_website], and
    [last_status] still holds the record of the cycle before. *)
Theorem check_website_raising_report_keeps_last_status :
  let w := with_channel_send
             (Raised (Exn.Make Exn.Forbidden "403 Forbidden")) Sample.down in
  let before :=
    {| online := true; response_time := 40;
       message := "ResilientInterface is online. Response time: 40ms";
       timestamp := 900 |} in
  let s := {| last_status := Some before; consecutive_failures := 0 |} in
  outcome (probe Sample.cfg w s) = Returned Sample.down_status
  /\ reported (check_website Sample.cfg w s) = true
  /\ outcome (check_website Sample.cfg w s)
     = Raised (Exn.Make Exn.Forbidden "403 Forbidden")
  /\ state_after (check_website Sample.cfg w s)
     = {| last_status := Some before; consecutive_failures := 1 |}
  /\ last_status (state_after (check_website Sample.cfg w s))
     <> Some Sample.down_status.
Proof.
  cbv zeta. repeat split; try reflexivity.
  vm_compute. discriminate.
Qed.

(** C5. A delivery failure does leave the notify step: when the user
    cannot be fetched ([NotFound]), or when the channel send is refused
    ([Forbidden]), [report_status] raises that exception without logging
    a line, and so does the cycle that called it. *)
Theorem report_status_delivery_failure_propagates :
  let not_found := Exn.Make Exn.NotFound "404 Not Found" in
  let forbidden := Exn.Make Exn.Forbidden "403 Forbidden" in
  let w1 := with_fetch_user (Raised not_found) Sample.down in
  let w2 := with_channel_send (Raised forbidden) Sample.down in
  (outcome (report_status Sample.cfg w1 Sample.down_status initial_state)
   = Raised not_found
   /\ existsb is_Print
        (trace (report_status Sample.cfg w1 Sample.down_status initial_state))
      = false
   /\ outcome (check_website Sample.cfg w1 initial_state) = Raised not_found)
  /\ (outcome (report_status Sample.cfg w2 Sample.down_status initial_state)
      = Raised forbidden
      /\ existsb is_Print
           (trace (report_status Sample.cfg w2 Sample.down_status initial_state))
         = false
      /\ outcome (check_website Sample.cfg w2 initial_state) = Raised forbidden).
Proof. cbv zeta. repeat split; reflexivity. Qed.

(** ** The direct-message leg *)

(** A direct message that fails with an [Exception] is logged, after the
    channel send, and [report_status] returns. *)
Lemma report_status_dm_caught (cfg : Config) (w : World) (status : Status)
      (s : MonitorState) (ch : Channel) (u : User) (e : Exn.t) :
  get_channel w (status_channel_id cfg) = Some ch ->
  fetch_user w (user_id cfg) = Returned (Some u) ->
  channel_send w ch (status_embed cfg status) = Returned tt ->
  user_send w u (status_embed cfg status) = Raised e ->
  Exn.is_Exception e = true ->
  report_status cfg w status s =
    (Returned tt, s,
     [GetChannel (status_channel_id cfg); FetchUser (user_id cfg);
      ChannelSend ch (status_embed cfg status);
      UserSend u (status_embed cfg status);
      Print (if Exn.is_Forbidden e
             then "Cannot send DM to user " +:+ name u
                  +:+ ". They may have DMs disabled."
             else "Error sending DM to user: " +:+ Exn.str e)]).
Proof.
  intros Hch Hu Hsend Hdm Hexn.
  rewrite report_status_run, Hch, Hu. cbn zeta. rewrite Hsend, Hdm, Hexn.
  destruct (Exn.is_Forbidden e); reflexivity.
Qed.

(** When the report returns, the globals after the cycle are those the
    probe left, with its record in [last_status]. *)
Lemma check_website_state_after_report (cfg : Config) (w : World)
      (s s1 : MonitorState) (status : Status) (t1 : list event) :
  probe cfg w s = (Returned status, s1, t1) ->
  outcome (report_status cfg w status s1) = Returned tt ->
  state_after (check_website cfg w s)
  = {| last_status := Some status;
       consecutive_failures := consecutive_failures s1 |}.
Proof.
  intros Hprobe Hret. rewrite check_website_run, Hprobe. cbn zeta.
  destruct (should_report _ _ _); [|reflexivity].
  destruct (report_status_frame cfg w status s1) as [Hs _].
  destruct (report_status cfg w status s1) as [[[[]|e] s2] t3];
    unfold outcome, state_after in *; cbn [fst snd] in *; [|discriminate].
  subst s2. reflexivity.
Qed.

(** C6, as stated, fails: with a channel that resolves and a user lookup
    that yields no user, [report_status] logs and returns having sent
    nothing to the channel, and the lookup of the recipient is not
    preceded by a channel send. *)
Lemma report_status_unresolved_user_sends_nothing :
  let w := with_fetch_user (Returned None) Sample.down in
  let run := report_status Sample.cfg w Sample.down_status initial_state in
  get_channel w (status_channel_id Sample.cfg) = Some {| channel_id := 12 |}
  /\ run = (Returned tt, initial_state,
            [GetChannel 12; FetchUser 7; Print "Cannot find user with ID 7"])
  /\ existsb is_ChannelSend (trace run) = false
  /\ ~ channel_send_first (trace run).
Proof.
  cbv zeta. repeat split; try reflexivity.
  intros H.
  specialize (H [GetChannel 12] (FetchUser 7)
                [Print "Cannot find user with ID 7"] eq_refl eq_refl).
  discriminate H.
Qed.

(** C6, amended. With a channel that resolves: [report_status] looks both
    destinations up before it sends anything; when the user lookup yields
    no user it logs and returns with no channel send; of the two sends
    the one to the channel comes first, so that a direct message failing
    with an [Exception] is logged after it and [report_status] returns;
    and whenever [report_status] returns, the cycle ends with the counter
    the probe left and the probe's record in [last_status]. *)
Theorem report_status_direct_message_failure
        (cfg : Config) (w : World) (ch : Channel) :
  get_channel w (status_channel_id cfg) = Some ch ->
  (forall status s, exists rest,
      trace (report_status cfg w status s)
      = GetChannel (status_channel_id cfg) :: FetchUser (user_id cfg) :: rest)
  /\ (forall status s,
         fetch_user w (user_id cfg) = Returned None ->
         report_status cfg w status s
         = (Returned tt, s,
            [GetChannel (status_channel_id cfg); FetchUser (user_id cfg);
             Print ("Cannot find user with ID " +:+ str_of_int (user_id cfg))]))
  /\ (forall status s u e,
         fetch_user w (user_id cfg) = Returned (Some u) ->
         channel_send w ch (status_embed cfg status) = Returned tt ->
         user_send w u (status_embed cfg status) = Raised e ->
         Exn.is_Exception e = true ->
         exists line,
           report_status cfg w status s
           = (Returned tt, s,
              [GetChannel (status_channel_id cfg); FetchUser (user_id cfg);
               ChannelSend ch (status_embed cfg status);
               UserSend u (status_embed cfg status);
               Print line]))
  /\ (forall s status s1 t1,
         probe cfg w s = (Returned status, s1, t1) ->
         outcome (report_status cfg w status s1) = Returned tt ->
         state_after (check_website cfg w s)
         = {| last_status := Some status;
              consecutive_failures := consecutive_failures s1 |}).
Proof.
  intros Hch. repeat split.
  - intros status s. apply report_status_frame.
  - intros status s Hu. rewrite report_status_run, Hch, Hu. reflexivity.
  - intros status s u e Hu Hsend Hdm Hexn. eexists.
    apply (report_status_dm_caught cfg w status s ch u e); assumption.
  - intros s status s1 t1. apply check_website_state_after_report.
Qed.

Lemma report_status_direct_message_failure_witness :
  let w := with_user_send (Raised (Exn.Make Exn.Forbidden "403 Forbidden"))
             Sample.down in
  get_channel w (status_channel_id Sample.cfg) = Some {| channel_id := 12 |}
  /\ state_after (check_website Sample.cfg w initial_state)
     = {| last_status := Some Sample.down_status; consecutive_failures := 1 |}.
Proof.
  cbv zeta. split; [reflexivity|].
  apply (proj2 (proj2 (proj2
           (report_status_direct_message_failure Sample.cfg
              (with_user_send (Raised (Exn.Make Exn.Forbidden "403 Forbidden"))
                 Sample.down)
              {| channel_id := 12 |} eq_refl)))
           initial_state Sample.down_status
           {| last_status := None; consecutive_failures := 1 |}
           [HttpGet (check_url Sample.cfg) 10;
            Print "Error checking website: timed out"]);
    reflexivity.
Defined.

(** C10, as stated, fails: a user send cancelled while it is awaited
    raises [CancelledError], which neither [except] clause of lines
    147-150 catches; nothing is logged for it and [report_status] raises. *)
Lemma report_status_cancelled_user_send_propagates :
  let cancelled := Exn.Make Exn.CancelledError "" in
  let w := with_user_send (Raised cancelled) Sample.down in
  let run := report_status Sample.cfg w Sample.down_status initial_state in
  outcome run = Raised cancelled
  /\ existsb is_Print (trace run) = false.
Proof. cbv zeta. split; reflexivity. Qed.

(** C10, amended. Once the channel send has returned, every exception of
    class [Exception] raised by the user send is swallowed: [Forbidden]
    with the line about disabled DMs, any other with the line that quotes
    the error; the line is the last thing logged and [report_status]
    returns with the globals untouched. *)
Theorem report_status_swallows_user_send_exception
        (cfg : Config) (w : World) (status : Status) (s : MonitorState)
        (ch : Channel) (u : User) (e : Exn.t) :
  get_channel w (status_channel_id cfg) = Some ch ->
  fetch_user w (user_id cfg) = Returned (Some u) ->
  channel_send w ch (status_embed cfg status) = Returned tt ->
  user_send w u (status_embed cfg status) = Raised e ->
  Exn.is_Exception e = true ->
  outcome (report_status cfg w status s) = Returned tt
  /\ state_after (report_status cfg w status s) = s
  /\ last (trace (report_status cfg w status s))
     = Some (Print (if Exn.is_Forbidden e
                    then "Cannot send DM to user " +:+ name u
                         +:+ ". They may have DMs disabled."
                    else "Error sending DM to user: " +:+ Exn.str e)).
Proof.
  intros Hch Hu Hsend Hdm Hexn.
  rewrite (report_status_dm_caught cfg w status s ch u e Hch Hu Hsend Hdm Hexn).
  repeat split.
Qed.

Lemma report_status_swallows_user_send_exception_witness :
  let e := Exn.Make Exn.RuntimeError "Session is closed" in
  let w := with_user_send (Raised e) Sample.down in
  Exn.is_Exception e = true
  /\ outcome (report_status Sample.cfg w Sample.down_status initial_state)
     = Returned tt
  /\ last (trace (report_status Sample.cfg w Sample.down_status initial_state))
     = Some (Print "Error sending DM to user: Session is closed").
Proof.
  cbv zeta. split; [reflexivity|].
  pose proof (report_status_swallows_user_send_exception Sample.cfg
                (with_user_send
                   (Raised (Exn.Make Exn.RuntimeError "Session is closed"))
                   Sample.down)
                Sample.down_status initial_state
                {| channel_id := 12 |} Sample.bob
                (Exn.Make Exn.RuntimeError "Session is closed")
                eq_refl eq_refl eq_refl eq_refl eq_refl) as (Hret & _ & Hlast).
  split; [exact Hret | exact Hlast].
Defined.

(** ** What the probe records *)

Lemma prefix_iff_append (p s : string) :
  String.prefix p s = true <-> exists rest, s = p +:+ rest.
Proof.
  revert s. induction p as [|a p IH]; intros s.
  - split; [intros _; exists s; reflexivity | intros _; destruct s; reflexivity].
  - destruct s as [|b s].
    + split; [discriminate|]. intros [rest H]. discriminate H.
    + change (String.prefix (String a p) (String b s))
        with (if ascii_dec a b then String.prefix p s else false).
      destruct (ascii_dec a b) as [->|Hne].
      * rewrite IH. split; intros [rest H]; exists rest.
        -- rewrite H. reflexivity.
        -- cbn in H. injection H as H. exact H.
      * split; [discriminate|]. intros [rest H].
        cbn in H. injection H as H1 H2. congruence.
Qed.

(** C7. When the request returns a response, the probe yields a record
    whose [online] flag is [true] exactly when the status is 200 and the
    content type (the empty text when the header is missing) starts with
    [image/]; an offline record of a response names the status code and
    the content type in its message.  When the request raises, a record,
    if any, is offline.  In particular a 200 response declared
    [text/html] gives an offline record whose message ends with
    [returned status 200 but invalid content type: text/html]. *)
Theorem probe_online_iff_image (cfg : Config) (w : World) (s : MonitorState) :
  match session_get w (check_url cfg) 10 with
  | Returned response =>
      let content_type := default "" (Response.content_type response) in
      exists status,
        outcome (probe cfg w s) = Returned status
        /\ (online status = true <->
              Response.status response = 200
              /\ exists rest, content_type = "image/" +:+ rest)
        /\ (online status = false ->
            message status
            = website_name cfg +:+ " returned status "
              +:+ str_of_int (Response.status response)
              +:+ " but invalid content type: " +:+ content_type)
        /\ (response = Sample.html ->
            online status = false
            /\ message status
               = website_name cfg
                 +:+ " returned status 200 but invalid content type: text/html")
  | Raised _ =>
      forall status,
        outcome (probe cfg w s) = Returned status -> online status = false
  end.
Proof.
  rewrite probe_run.
  destruct (session_get w (check_url cfg) 10) as [response|e]; cbn zeta.
  - destruct (_ && _) eqn:Hok; eexists; (split; [reflexivity|]); cbn [online message].
    + apply andb_true_iff in Hok as [Hs Hc].
      apply Z.eqb_eq in Hs. apply prefix_iff_append in Hc.
      split; [|split].
      * split; [intros _; split; assumption | reflexivity].
      * discriminate.
      * intros ->. destruct Hc as [rest Hc]. discriminate Hc.
    + split; [|split].
      * split; [discriminate|]. intros [Hs Hc].
        apply Z.eqb_eq in Hs. apply prefix_iff_append in Hc.
        unfold startswith in Hok. rewrite Hs, Hc in Hok. discriminate Hok.
      * reflexivity.
      * intros ->. split; reflexivity.
  - destruct (Exn.is_Exception e); intros status H; unfold outcome in H;
      cbn [fst] in H; [|discriminate].
    injection H as <-. reflexivity.
Qed.

(** ** Configuration and startup *)

(** Whatever the environment, a configuration that loads has the target
    URL, the interval, the display name, the home URL and the debug flag
    of the source text. *)
Lemma CONFIG_constants (environ : gmap string string) (cfg : Config) :
  CONFIG environ = Returned cfg ->
  check_url cfg = "https://resilientinterface.com/resources/images/info-hub.png"
  /\ check_interval cfg = 3600
  /\ website_name cfg = "ResilientInterface"
  /\ website_home_url cfg = "https://resilientinterface.com"
  /\ debug cfg = true.
Proof.
  unfold CONFIG.
  destruct (int (getenv environ "STATUS_CHANNEL_ID" _)); [|discriminate].
  destruct (int (getenv environ "USER_ID" _)); [|discriminate].
  intros H. injection H as <-. repeat split.
Qed.

(** C8, as stated, fails: the check interval, the display name, the home
    URL and the debug flag of a loaded configuration, and the failure
    threshold, do not vary with the environment. *)
Lemma hardcoded_settings_not_environment_sourced :
  ~ environment_sourced check_interval
  /\ ~ environment_sourced website_name
  /\ ~ environment_sourced website_home_url
  /\ ~ environment_sourced debug
  /\ ~ environment_sourced (fun _ => MAX_CONSECUTIVE_FAILURES).
Proof.
  repeat split; intros (e1 & e2 & c1 & c2 & H1 & H2 & Hne); apply Hne;
    destruct (CONFIG_constants e1 c1 H1) as (_ & Hi1 & Hn1 & Hh1 & Hd1);
    destruct (CONFIG_constants e2 c2 H2) as (_ & Hi2 & Hn2 & Hh2 & Hd2);
    congruence.
Qed.

(** C8, amended. The channel identifier and the user identifier of the
    configuration are read from the environment ([STATUS_CHANNEL_ID],
    [USER_ID]) when it is built, and the token handed to [bot.run] is the
    environment's [DISCORD_BOT_TOKEN]; the target URL, the check interval
    (3600), the display name, the home URL, the debug flag ([True]) and
    the failure threshold (3) are constants of the source. *)
Theorem CONFIG_environment_and_constants :
  environment_sourced status_channel_id
  /\ environment_sourced user_id
  /\ (forall environ bot_run,
         match CONFIG environ with
         | Returned cfg =>
             int (getenv environ "STATUS_CHANNEL_ID" "YOUR_PRIVATE_CHANNEL_ID")
             = Returned (status_channel_id cfg)
             /\ int (getenv environ "USER_ID" "YOUR_DISCORD_USER_ID")
                = Returned (user_id cfg)
             /\ snd (main environ bot_run)
                = [BotRun (environ !! "DISCORD_BOT_TOKEN")]
             /\ check_url cfg
                = "https://resilientinterface.com/resources/images/info-hub.png"
             /\ check_interval cfg = 3600
             /\ website_name cfg = "ResilientInterface"
             /\ website_home_url cfg = "https://resilientinterface.com"
             /\ debug cfg = true
         | Raised _ => True
         end)
  /\ MAX_CONSECUTIVE_FAILURES = 3.
Proof.
  assert (H1 : CONFIG Sample.environ = Returned Sample.cfg) by reflexivity.
  split; [|split; [|split]].
  - exists Sample.environ, Sample.other_environ. eexists _, _.
    split; [exact H1|]. split; [reflexivity|]. discriminate.
  - exists Sample.environ, Sample.other_environ. eexists _, _.
    split; [exact H1|]. split; [reflexivity|]. discriminate.
  - intros environ bot_run. unfold main.
    pose proof (CONFIG_constants environ) as Hconst.
    unfold CONFIG in *.
    destruct (int (getenv environ "STATUS_CHANNEL_ID" _)) as [channel|]; [|exact I].
    destruct (int (getenv environ "USER_ID" _)) as [user|]; [|exact I].
    destruct (Hconst _ eq_refl) as (? & ? & ? & ? & ?).
    repeat split; assumption.
  - reflexivity.
Qed.

(** [int] refuses the two placeholder defaults of lines 23 and 26. *)
Lemma int_placeholders :
  (exists e, int "YOUR_PRIVATE_CHANNEL_ID" = Raised e
             /\ Exn.cls e = Exn.ValueError)
  /\ (exists e, int "YOUR_DISCORD_USER_ID" = Raised e
                /\ Exn.cls e = Exn.ValueError).
Proof. split; eexists; split; reflexivity. Qed.

(** [int] raises nothing but [ValueError]. *)
Lemma int_raises_ValueError (text : string) (e : Exn.t) :
  int text = Raised e -> Exn.cls e = Exn.ValueError.
Proof.
  unfold int.
  destruct (scanned_digits true 0 (int_body text)) as [digits|];
    [destruct (int_max_str_digits <? digits)|];
    try destruct (int_literal text);
    try discriminate; intros H; injection H as <-; reflexivity.
Qed.

(** What [int] returns is the value of the literal. *)
Lemma int_returned_literal (text : string) (n : Z) :
  int text = Returned n -> int_literal text = Some n.
Proof.
  unfold int.
  destruct (scanned_digits true 0 (int_body text)) as [digits|];
    [destruct (int_max_str_digits <? digits)|];
    try destruct (int_literal text);
    try discriminate; intros H; injection H as <-; reflexivity.
Qed.

(** C9. In an environment without [STATUS_CHANNEL_ID] or without [USER_ID],
    building [CONFIG] raises [ValueError], and the module body stops there:
    it raises that exception and [bot.run] is never called. *)
Theorem CONFIG_raises_without_identifiers
        (environ : gmap string string) (bot_run : option string -> result unit) :
  environ !! "STATUS_CHANNEL_ID" = None \/ environ !! "USER_ID" = None ->
  exists e,
    Exn.cls e = Exn.ValueError
    /\ CONFIG environ = Raised e
    /\ main environ bot_run = (Raised e, []).
Proof.
  destruct int_placeholders as [(e1 & Hchannel & He1) (e2 & Huser & He2)].
  intros Habsent. unfold main, CONFIG, getenv.
  destruct Habsent as [H|H]; rewrite H.
  - rewrite Hchannel. exists e1. split; [exact He1|split; reflexivity].
  - set (text := match environ !! "STATUS_CHANNEL_ID" with
                 | Some v => v
                 | None => "YOUR_PRIVATE_CHANNEL_ID"
                 end).
    destruct (int text) as [channel|e] eqn:Hint.
    + rewrite Huser. exists e2. split; [exact He2|split; reflexivity].
    + exists e. split; [|split; reflexivity].
      apply (int_raises_ValueError _ _ Hint).
Qed.

Lemma CONFIG_raises_without_identifiers_witness :
  Sample.token_only !! "STATUS_CHANNEL_ID" = None
  /\ exists e,
      Exn.cls e = Exn.ValueError
      /\ CONFIG Sample.token_only = Raised e
      /\ main Sample.token_only (fun _ => Returned tt) = (Raised e, []).
Proof.
  assert (H : Sample.token_only !! "STATUS_CHANNEL_ID" = None) by reflexivity.
  split; [exact H|].
  exact (CONFIG_raises_without_identifiers Sample.token_only
           (fun _ => Returned tt) (or_introl H)).
Defined.

(** * Further properties of the code *)

(** ** The probe, seen from its observation *)

(** A probe observed as [b] returns a record with that flag, leaves
    [last_status] alone and sets the counter by [b]. *)
Lemma observation_probe (cfg : Config) (w : World) (s : MonitorState) (b : bool) :
  observation cfg w = Some b ->
  exists status s1 t1,
    probe cfg w s = (Returned status, s1, t1)
    /\ online status = b
    /\ last_status s1 = last_status s
    /\ consecutive_failures s1 = (if b then 0 else consecutive_failures s + 1).
Proof.
  unfold observation. rewrite (probe_outcome_any_state cfg w initial_state s).
  rewrite probe_run.
  destruct (session_get w (check_url cfg) 10) as [response|e]; cbn beta iota zeta.
  - destruct (_ && _); cbn; intros H; injection H as <-;
      eexists _, _, _; repeat split.
  - destruct (Exn.is_Exception e); cbn; intros H; [|discriminate].
    injection H as <-. eexists _, _, _; repeat split.
Qed.

(** After a cycle, [last_status] is either what it was or the record of
    the cycle's probe. *)
Lemma check_website_last_status (cfg : Config) (w : World) (s : MonitorState) :
  last_status (state_after (check_website cfg w s)) = last_status s
  \/ exists status,
      outcome (probe cfg w s) = Returned status
      /\ last_status (state_after (check_website cfg w s)) = Some status.
Proof.
  rewrite check_website_run.
  destruct (probe_frame cfg w s) as [Hlast _].
  destruct (probe cfg w s) as [[[status|e] s1] t1];
    unfold state_after, outcome in *; cbn [fst snd] in *; [|left; exact Hlast].
  cbn zeta. destruct (should_report _ _ _).
  - destruct (report_status_frame cfg w status s1) as [Hs _].
    destruct (report_status cfg w status s1) as [[[[]|e] s2] t3];
      unfold state_after in Hs; cbn [fst snd] in *.
    + right. exists status. split; reflexivity.
    + left. subst s2. exact Hlast.
  - right. exists status. split; reflexivity.
Qed.

(** ** What [report_status] sends *)

(** X1. [report_status] never writes [last_status] or
    [consecutive_failures], whatever the lookups and the sends do, also
    when it raises. *)
Theorem report_status_preserves_globals
        (cfg : Config) (w : World) (status : Status) (s : MonitorState) :
  state_after (report_status cfg w status s) = s.
Proof. apply report_status_frame. Qed.

(** X2. When the user lookup returns and the channel lookup or the user
    lookup yields nothing, [report_status] returns having sent nothing,
    neither to the channel nor to the user, and the last thing it did is
    log one line; with no channel that line is about the channel, also
    when the user is missing too. *)
Theorem report_status_unresolved_sends_nothing
        (cfg : Config) (w : World) (status : Status) (s : MonitorState)
        (user : option User) :
  fetch_user w (user_id cfg) = Returned user ->
  get_channel w (status_channel_id cfg) = None \/ user = None ->
  outcome (report_status cfg w status s) = Returned tt
  /\ existsb is_ChannelSend (trace (report_status cfg w status s)) = false
  /\ existsb is_UserSend (trace (report_status cfg w status s)) = false
  /\ (exists line, last (trace (report_status cfg w status s)) = Some (Print line))
  /\ (get_channel w (status_channel_id cfg) = None ->
      last (trace (report_status cfg w status s))
      = Some (Print ("Cannot find channel with ID "
                     +:+ str_of_int (status_channel_id cfg)))).
Proof.
  intros Hu Hnone. rewrite report_status_run, Hu. cbn zeta.
  destruct (get_channel w (status_channel_id cfg)) as [ch|].
  - destruct Hnone as [H| ->]; [discriminate|].
    repeat split; try reflexivity; [eexists; reflexivity | discriminate].
  - repeat split; try reflexivity. eexists; reflexivity.
Qed.

Lemma report_status_unresolved_sends_nothing_witness :
  let w := with_fetch_user (Returned None) Sample.down in
  fetch_user w (user_id Sample.cfg) = Returned None
  /\ existsb is_ChannelSend
       (trace (report_status Sample.cfg w Sample.down_status initial_state))
     = false.
Proof.
  cbv zeta. split; [reflexivity|].
  exact (proj1 (proj2
    (report_status_unresolved_sends_nothing Sample.cfg
       (with_fetch_user (Returned None) Sample.down)
       Sample.down_status initial_state None eq_refl (or_intror eq_refl)))).
Defined.

(** X3. A direct message is attempted only after both lookups succeeded
    and the channel send returned: whenever the log of [report_status]
    holds a send to a user, it starts with the two lookups, the channel
    send and that user send, both sends carry the same embed, the one
    built from the status, and the channel send did return. *)
Theorem report_status_user_send_follows_channel_send
        (cfg : Config) (w : World) (status : Status) (s : MonitorState)
        (u : User) (e : Embed) :
  In (UserSend u e) (trace (report_status cfg w status s)) ->
  e = status_embed cfg status
  /\ exists ch rest,
      get_channel w (status_channel_id cfg) = Some ch
      /\ fetch_user w (user_id cfg) = Returned (Some u)
      /\ channel_send w ch e = Returned tt
      /\ trace (report_status cfg w status s)
         = [GetChannel (status_channel_id cfg); FetchUser (user_id cfg);
            ChannelSend ch e; UserSend u e] ++ rest.
Proof.
  rewrite report_status_run. cbn zeta.
  destruct (fetch_user w (user_id cfg)) as [[user|]|ex] eqn:Hu;
    destruct (get_channel w (status_channel_id cfg)) as [ch|] eqn:Hch;
    cbn [trace snd app In];
    try (intros H; repeat destruct H as [H|H]; try discriminate H; contradiction).
  destruct (channel_send w ch (status_embed cfg status)) as [[]|ex] eqn:Hsend;
    cbn [trace snd app In];
    try (intros H; repeat destruct H as [H|H]; try discriminate H; contradiction).
  assert (Hshape : forall rest,
             rest = [] \/ (exists line, rest = [Print line]) ->
             In (UserSend u e)
                (GetChannel (status_channel_id cfg) :: FetchUser (user_id cfg)
                 :: ChannelSend ch (status_embed cfg status)
                 :: UserSend user (status_embed cfg status) :: rest) ->
             u = user /\ e = status_embed cfg status).
  { intros rest Hrest Hin.
    destruct Hin as [H|[H|[H|[H|H]]]]; try discriminate H.
    - injection H as -> ->. split; reflexivity.
    - destruct Hrest as [->|[line ->]]; [contradiction|].
      destruct H as [H|[]]. discriminate H. }
  destruct (user_send w user (status_embed cfg status)) as [[]|ex] eqn:Hdm;
    [|destruct (Exn.is_Forbidden ex); [|destruct (Exn.is_Exception ex)]];
    unfold trace; cbn [snd app]; intros Hin;
    (apply Hshape in Hin as [-> ->];
     [|first [left; reflexivity | right; eexists; reflexivity]]);
    (split; [reflexivity|]); eexists ch, _;
    (split; [reflexivity|]); (split; [reflexivity|]); (split; [exact Hsend|]);
    reflexivity.
Qed.

Lemma report_status_user_send_follows_channel_send_witness :
  let embed := status_embed Sample.cfg Sample.down_status in
  In (UserSend Sample.bob embed)
     (trace (report_status Sample.cfg Sample.down Sample.down_status initial_state))
  /\ channel_send Sample.down {| channel_id := 12 |} embed = Returned tt.
Proof.
  cbv zeta.
  assert (Hin : In (UserSend Sample.bob (status_embed Sample.cfg Sample.down_status))
                   (trace (report_status Sample.cfg Sample.down
                             Sample.down_status initial_state))).
  { right. right. right. left. reflexivity. }
  split; [exact Hin|].
  destruct (report_status_user_send_follows_channel_send _ _ _ _ _ _ Hin)
    as (_ & ch & rest & _ & _ & _ & _).
  reflexivity.
Defined.

(** X4. One call of [report_status] looks the channel up exactly once and
    the user up exactly once, in that order and before anything else, and
    sends at most once to the channel and at most once to the user:
    nothing is retried. *)
Theorem report_status_sends_at_most_once
        (cfg : Config) (w : World) (status : Status) (s : MonitorState) :
  (exists rest,
      trace (report_status cfg w status s)
      = GetChannel (status_channel_id cfg) :: FetchUser (user_id cfg) :: rest
      /\ existsb is_GetChannel rest = false
      /\ existsb is_FetchUser rest = false)
  /\ length (List.filter is_GetChannel (trace (report_status cfg w status s)))
     = 1%nat
  /\ length (List.filter is_FetchUser (trace (report_status cfg w status s)))
     = 1%nat
  /\ (length (List.filter is_ChannelSend (trace (report_status cfg w status s)))
      <= 1)%nat
  /\ (length (List.filter is_UserSend (trace (report_status cfg w status s)))
      <= 1)%nat.
Proof.
  rewrite report_status_run. cbn zeta.
  destruct (fetch_user w (user_id cfg)) as [[user|]|ex];
    destruct (get_channel w (status_channel_id cfg)) as [ch|];
    try (split; [eexists; repeat split|repeat split; cbn; lia]).
  destruct (channel_send w ch (status_embed cfg status)) as [[]|ex];
    try (split; [eexists; repeat split|repeat split; cbn; lia]).
  destruct (user_send w user (status_embed cfg status)) as [[]|ex];
    [|destruct (Exn.is_Forbidden ex); [|destruct (Exn.is_Exception ex)]];
    (split; [eexists; repeat split|repeat split; cbn; lia]).
Qed.

(** ** What one cycle does *)

Lemma report_status_no_request
      (cfg : Config) (w : World) (status : Status) (s : MonitorState) :
  existsb is_HttpGet (trace (report_status cfg w status s)) = false.
Proof.
  rewrite report_status_run. cbn zeta.
  destruct (fetch_user w (user_id cfg)) as [[user|]|ex];
    destruct (get_channel w (status_channel_id cfg)) as [ch|]; try reflexivity.
  destruct (channel_send w ch (status_embed cfg status)) as [[]|ex];
    try reflexivity.
  destruct (user_send w user (status_embed cfg status)) as [[]|ex];
    [reflexivity|].
  destruct (Exn.is_Forbidden ex); [reflexivity|].
  destruct (Exn.is_Exception ex); reflexivity.
Qed.

(** X5. Every cycle issues exactly one HTTP request: it is the first thing
    the cycle does, it goes to [check_url] with a timeout of 10, and no
    second request follows, whatever the first one gave. *)
Theorem check_website_requests_once
        (cfg : Config) (w : World) (s : MonitorState) :
  exists rest,
    trace (check_website cfg w s) = HttpGet (check_url cfg) 10 :: rest
    /\ existsb is_HttpGet rest = false.
Proof.
  rewrite check_website_run.
  assert (Hprobe : exists rest1,
             trace (probe cfg w s) = HttpGet (check_url cfg) 10 :: rest1
             /\ existsb is_HttpGet rest1 = false).
  { rewrite probe_run.
    destruct (session_get w (check_url cfg) 10) as [response|e];
      cbn beta iota zeta.
    - destruct (_ && _); eexists; split; reflexivity.
    - destruct (Exn.is_Exception e); [|eexists; split; reflexivity].
      destruct (debug cfg); eexists; split; reflexivity. }
  destruct (probe cfg w s) as [[[status|e] s1] t1];
    unfold trace in *; cbn [snd] in *; [|exact Hprobe].
  destruct Hprobe as (rest1 & -> & Hrest1). cbn zeta.
  assert (Hprint : existsb is_HttpGet
                     (rest1 ++ (if debug cfg then [Print (message status)] else []))
                   = false).
  { rewrite existsb_app, Hrest1. destruct (debug cfg); reflexivity. }
  destruct (should_report _ _ _).
  - pose proof (report_status_no_request cfg w status s1) as Hreport.
    destruct (report_status cfg w status s1) as [[[[]|e] s2] t3];
      unfold trace in Hreport; cbn [snd] in *;
      exists ((rest1 ++ (if debug cfg then [Print (message status)] else []))
              ++ t3);
      (split; [reflexivity|]);
      rewrite existsb_app, Hprint, Hreport; reflexivity.
  - cbn [snd].
    exists (rest1 ++ (if debug cfg then [Print (message status)] else [])).
    split; [reflexivity|]. exact Hprint.
Qed.

(** X6. A request that fails with an exception outside [Exception] (a
    cancellation, an interrupt) is not an observation: the cycle raises
    it, having done nothing but the request, and both globals are as they
    were; in particular the failure is not counted. *)
Theorem check_website_uncaught_request_exception
        (cfg : Config) (w : World) (s : MonitorState) (e : Exn.t) :
  session_get w (check_url cfg) 10 = Raised e ->
  Exn.is_Exception e = false ->
  check_website cfg w s = (Raised e, s, [HttpGet (check_url cfg) 10]).
Proof.
  intros Hget Hbase. rewrite check_website_run, probe_run, Hget, Hbase.
  reflexivity.
Qed.

Lemma check_website_uncaught_request_exception_witness :
  let cancelled := Exn.Make Exn.CancelledError "" in
  let w := Sample.answering (Raised cancelled) in
  Exn.is_Exception cancelled = false
  /\ state_after (check_website Sample.cfg w initial_state) = initial_state.
Proof.
  cbv zeta. split; [reflexivity|].
  rewrite (check_website_uncaught_request_exception Sample.cfg
             (Sample.answering (Raised (Exn.Make Exn.CancelledError "")))
             initial_state (Exn.Make Exn.CancelledError "") eq_refl eq_refl).
  reflexivity.
Defined.

(** ** Runs of cycles *)

Lemma check_website_returned_consistent
      (cfg : Config) (w : World) (s : MonitorState) :
  0 <= consecutive_failures s ->
  outcome (check_website cfg w s) = Returned tt ->
  consistent (state_after (check_website cfg w s)).
Proof.
  intros Hpos Hret.
  destruct (check_website_returned cfg w s Hret) as (status & Hprobe & Hlast).
  assert (Hobs : observation cfg w = Some (online status)).
  { unfold observation.
    rewrite (probe_outcome_any_state cfg w initial_state s), Hprobe. reflexivity. }
  pose proof (check_website_counter cfg w s) as Hcount. rewrite Hobs in Hcount.
  unfold consistent. rewrite Hlast, Hcount.
  destruct (online status); split; try lia; split; intros; try lia;
    try reflexivity; discriminate.
Qed.

(** X7. The two globals stay in step over cycles that return: from
    globals that are consistent (the initial ones are), after any number
    of cycles that each returned, the counter is not negative, a record
    is stored, and the counter is 0 exactly when that record is online. *)
Theorem cycles_keep_globals_consistent
        (cfg : Config) (worlds : list World) (s : MonitorState) :
  consistent s ->
  Forall (fun r => outcome r = Returned tt) (cycles cfg worlds s) ->
  consistent (final_state cfg worlds s)
  /\ (worlds <> [] -> exists status,
        last_status (final_state cfg worlds s) = Some status
        /\ (online status = true <->
            consecutive_failures (final_state cfg worlds s) = 0)).
Proof.
  revert s. induction worlds as [|w ws IH]; intros s Hs Hret.
  - split; [exact Hs|]. intros H. contradiction.
  - cbn [cycles] in Hret. inversion_clear Hret as [|? ? Hw Hws].
    change (final_state cfg (w :: ws) s)
      with (final_state cfg ws (state_after (check_website cfg w s))).
    pose proof (check_website_returned_consistent cfg w s (proj1 Hs) Hw) as Hs'.
    destruct (IH _ Hs' Hws) as [Hfinal Hstored].
    split; [exact Hfinal|]. intros _.
    destruct ws as [|w' ws'].
    + cbn [final_state fold_left].
      destruct (check_website_returned cfg w s Hw) as (status & _ & Hlast).
      exists status. split; [exact Hlast|].
      destruct Hs' as [_ Hs']. rewrite Hlast in Hs'. exact Hs'.
    + apply Hstored. discriminate.
Qed.

Lemma cycles_keep_globals_consistent_witness :
  let worlds := [Sample.up; Sample.down; Sample.down; Sample.up] in
  consistent initial_state
  /\ Forall (fun r => outcome r = Returned tt)
            (cycles Sample.cfg worlds initial_state)
  /\ consistent (final_state Sample.cfg worlds initial_state).
Proof.
  cbv zeta.
  assert (H0 : consistent initial_state).
  { split; cbn; [lia|reflexivity]. }
  assert (Hret : Forall (fun r => outcome r = Returned tt)
                   (cycles Sample.cfg
                      [Sample.up; Sample.down; Sample.down; Sample.up]
                      initial_state)).
  { repeat constructor. }
  split; [exact H0|]. split; [exact Hret|].
  exact (proj1 (cycles_keep_globals_consistent Sample.cfg _ _ H0 Hret)).
Defined.

(** A cycle whose condition is false returns and stores its record. *)
Lemma check_website_silent (cfg : Config) (w : World) (s : MonitorState) :
  reported (check_website cfg w s) = false ->
  (exists status, outcome (probe cfg w s) = Returned status) ->
  outcome (check_website cfg w s) = Returned tt.
Proof.
  intros Hrep [status Hprobe].
  pose proof (check_website_reported cfg w s) as H.
  destruct (probe_frame cfg w s) as [Hlast _].
  rewrite check_website_run.
  destruct (probe cfg w s) as [[[status'|e] s1] t1];
    unfold outcome, state_after in *; cbn [fst snd] in *; [|discriminate].
  rewrite Hrep in H. cbn zeta. rewrite Hlast, <- H. reflexivity.
Qed.

(** X8. While the site stays up nothing is reported: from globals whose
    stored record is online, cycles that all observe the site online each
    return without calling [report_status], whatever the counter was. *)
Theorem cycles_online_report_nothing
        (cfg : Config) (worlds : list World) (s : MonitorState)
        (previous : Status) :
  last_status s = Some previous ->
  online previous = true ->
  Forall (fun w => observation cfg w = Some true) worlds ->
  Forall (fun r => reported r = false /\ outcome r = Returned tt)
         (cycles cfg worlds s).
Proof.
  revert s previous. induction worlds as [|w ws IH];
    intros s previous Hlast Hon Hobs; [constructor|].
  inversion_clear Hobs as [|? ? Hw Hws]. cbn [cycles].
  destruct (observation_probe cfg w s true Hw)
    as (status & s1 & t1 & Hprobe & Hstatus & _ & _).
  assert (Hrep : reported (check_website cfg w s) = false).
  { pose proof (check_website_reported cfg w s) as H. rewrite Hprobe in H.
    rewrite H, Hlast. unfold should_report.
    rewrite Hon, Hstatus. cbn. apply andb_false_r. }
  assert (Hret : outcome (check_website cfg w s) = Returned tt).
  { apply check_website_silent; [exact Hrep|].
    exists status. rewrite Hprobe. reflexivity. }
  constructor; [split; assumption|].
  destruct (check_website_returned cfg w s Hret) as (status' & Hp & Hl).
  rewrite Hprobe in Hp. injection Hp as <-.
  apply (IH _ status Hl Hstatus Hws).
Qed.

Lemma cycles_online_report_nothing_witness :
  let s := state_after (check_website Sample.cfg Sample.up initial_state) in
  let worlds := [Sample.up; Sample.up; Sample.up] in
  Forall (fun w => observation Sample.cfg w = Some true) worlds
  /\ Forall (fun r => reported r = false /\ outcome r = Returned tt)
            (cycles Sample.cfg worlds s).
Proof.
  cbv zeta.
  assert (Hobs : Forall (fun w => observation Sample.cfg w = Some true)
                   [Sample.up; Sample.up; Sample.up]).
  { repeat constructor. }
  split; [exact Hobs|].
  exact (cycles_online_report_nothing Sample.cfg _
           (state_after (check_website Sample.cfg Sample.up initial_state))
           Sample.up_status eq_refl eq_refl Hobs).
Defined.

(** X9. During an outage the counter alone decides: from globals whose
    stored record is offline, over cycles that all observe the site
    offline, the cycle at position [k] (counted from 0) reports exactly
    when the counter it starts from plus [k + 1] has reached
    [MAX_CONSECUTIVE_FAILURES]; so the cycles below the threshold are
    silent and every cycle from the threshold on reports, also after
    reports that raised. *)
Theorem cycles_offline_report_from_threshold
        (cfg : Config) (worlds : list World) (s : MonitorState)
        (previous : Status) (k : nat)
        (r : result unit * MonitorState * list event) :
  last_status s = Some previous ->
  online previous = false ->
  Forall (fun w => observation cfg w = Some false) worlds ->
  nth_error (cycles cfg worlds s) k = Some r ->
  reported r
  = (MAX_CONSECUTIVE_FAILURES <=? consecutive_failures s + Z.of_nat k + 1).
Proof.
  revert s previous k. induction worlds as [|w ws IH];
    intros s previous k Hlast Hoff Hobs Hk.
  - destruct k; discriminate Hk.
  - inversion_clear Hobs as [|? ? Hw Hws]. cbn [cycles] in Hk.
    destruct (observation_probe cfg w s false Hw)
      as (status & s1 & t1 & Hprobe & Hstatus & _ & Hcount).
    destruct k as [|k].
    + cbn in Hk. injection Hk as <-.
      pose proof (check_website_reported cfg w s) as H. rewrite Hprobe in H.
      rewrite H, Hlast, Hcount. unfold should_report.
      rewrite Hoff, Hstatus. cbn. rewrite andb_true_r.
      f_equal. lia.
    + cbn [nth_error] in Hk.
      assert (Hnext : exists previous',
                 last_status (state_after (check_website cfg w s)) = Some previous'
                 /\ online previous' = false).
      { destruct (check_website_last_status cfg w s) as [H|(status' & Hp & Hl)].
        - exists previous. rewrite H. split; assumption.
        - rewrite Hprobe in Hp. injection Hp as <-.
          exists status. split; assumption. }
      destruct Hnext as (previous' & Hlast' & Hoff').
      rewrite (IH _ previous' k Hlast' Hoff' Hws Hk).
      rewrite check_website_counter, Hw. f_equal. lia.
Qed.

Lemma cycles_offline_report_from_threshold_witness :
  let s := state_after (check_website Sample.cfg Sample.down initial_state) in
  let worlds := [Sample.down; Sample.down; Sample.down] in
  Forall (fun w => observation Sample.cfg w = Some false) worlds
  /\ map reported (cycles Sample.cfg worlds s) = [false; true; true]
  /\ forall r, nth_error (cycles Sample.cfg worlds s) 1 = Some r ->
               reported r = true.
Proof.
  cbv zeta.
  assert (Hobs : Forall (fun w => observation Sample.cfg w = Some false)
                   [Sample.down; Sample.down; Sample.down]).
  { repeat constructor. }
  split; [exact Hobs|]. split; [reflexivity|]. intros r Hr.
  rewrite (cycles_offline_report_from_threshold Sample.cfg _
             (state_after (check_website Sample.cfg Sample.down initial_state))
             Sample.down_status 1 r eq_refl eq_refl Hobs Hr).
  reflexivity.
Defined.

(** ** When a cycle raises *)

Lemma is_Exception_of_Forbidden (e : Exn.t) :
  Exn.is_Forbidden e = true -> Exn.is_Exception e = true.
Proof. unfold Exn.is_Forbidden, Exn.is_Exception. destruct (Exn.cls e); easy. Qed.

(** X10. [report_status] raises in exactly three situations: the user
    lookup raises; or both destinations resolved and the channel send
    raises; or the channel send returned and the user send raises
    something that is not an [Exception].  It then raises that very
    exception; in particular a missing channel alone never makes it
    raise, and no [Exception] of the user send ever leaves it. *)
Theorem report_status_raises_iff
        (cfg : Config) (w : World) (status : Status) (s : MonitorState)
        (e : Exn.t) :
  outcome (report_status cfg w status s) = Raised e <->
    fetch_user w (user_id cfg) = Raised e
    \/ exists ch u,
        get_channel w (status_channel_id cfg) = Some ch
        /\ fetch_user w (user_id cfg) = Returned (Some u)
        /\ (channel_send w ch (status_embed cfg status) = Raised e
            \/ (channel_send w ch (status_embed cfg status) = Returned tt
                /\ user_send w u (status_embed cfg status) = Raised e
                /\ Exn.is_Exception e = false)).
Proof.
  split.
  - rewrite report_status_run. cbn zeta.
    destruct (fetch_user w (user_id cfg)) as [[user|]|ex] eqn:Hu;
      destruct (get_channel w (status_channel_id cfg)) as [ch|] eqn:Hch;
      unfold outcome; cbn [fst]; try discriminate;
      try (intros H; injection H as ->; left; reflexivity).
    destruct (channel_send w ch (status_embed cfg status)) as [[]|ex] eqn:Hs;
      cbn [fst].
    + destruct (user_send w user (status_embed cfg status)) as [[]|ex] eqn:Hdm;
        cbn [fst]; [discriminate|].
      destruct (Exn.is_Forbidden ex); [discriminate|].
      destruct (Exn.is_Exception ex) eqn:Hx; [discriminate|].
      cbn [fst]. intros H. injection H as ->.
      right. exists ch, user. split; [reflexivity|]. split; [reflexivity|].
      right. split; [exact Hs|]. split; [exact Hdm | exact Hx].
    + intros H. injection H as ->.
      right. exists ch, user. split; [reflexivity|]. split; [reflexivity|].
      left. exact Hs.
  - intros [H|(ch & u & Hch & Hu & [Hs|(Hs & Hdm & Hb)])];
      rewrite report_status_run; cbn zeta.
    + rewrite H. reflexivity.
    + rewrite Hu, Hch, Hs. reflexivity.
    + rewrite Hu, Hch, Hs, Hdm, Hb.
      destruct (Exn.is_Forbidden e) eqn:Hf; [|reflexivity].
      rewrite (is_Exception_of_Forbidden e Hf) in Hb. discriminate.
Qed.

(** X11. A cycle raises in exactly two situations: the request raises
    something that is not an [Exception]; or the probe yielded a record,
    the condition of lines 107-109 held and [report_status] raised.  A
    cycle that does not report therefore raises only on such a request. *)
Theorem check_website_raises_iff
        (cfg : Config) (w : World) (s : MonitorState) (e : Exn.t) :
  outcome (check_website cfg w s) = Raised e <->
    (session_get w (check_url cfg) 10 = Raised e /\ Exn.is_Exception e = false)
    \/ exists status s1 t1,
        probe cfg w s = (Returned status, s1, t1)
        /\ should_report (last_status s) status (consecutive_failures s1) = true
        /\ outcome (report_status cfg w status s1) = Raised e.
Proof.
  rewrite check_website_run.
  destruct (probe_frame cfg w s) as [Hlast _].
  pose proof (probe_run cfg w s) as Hrun.
  destruct (probe cfg w s) as [[[status|ex] s1] t1];
    unfold outcome, state_after in *; cbn [fst snd] in *.
  - rewrite Hlast. cbn zeta. split.
    + intros H. right. exists status, s1, t1. split; [reflexivity|].
      destruct (should_report _ _ _); [|discriminate]. split; [reflexivity|].
      destruct (report_status cfg w status s1) as [[[[]|ex] s2] t3];
        cbn [fst] in *; [discriminate|exact H].
    + intros [[Hget Hbase]|(status' & s1' & t1' & Heq & Hcond & Hraise)].
      * rewrite Hget, Hbase in Hrun. discriminate.
      * injection Heq as <- <- <-. rewrite Hcond.
        destruct (report_status cfg w status s1) as [[[[]|ex] s2] t3];
          cbn [fst] in *; [discriminate|exact Hraise].
  - split.
    + intros H. injection H as ->. left.
      destruct (session_get w (check_url cfg) 10) as [response|ex];
        cbn beta iota zeta in Hrun.
      * destruct (_ && _); discriminate.
      * destruct (Exn.is_Exception ex) eqn:Hx; [discriminate|].
        injection Hrun as -> _ _. split; [reflexivity|exact Hx].
    + intros [[Hget Hbase]|(status' & s1' & t1' & Heq & _)]; [|discriminate].
      rewrite Hget, Hbase in Hrun. injection Hrun as -> _ _. reflexivity.
Qed.

(** X12. [last_status] is replaced exactly by the cycles that return: a
    cycle that returns, having reported or not, stores the record of its
    probe; a cycle that raises leaves [last_status] as it found it. *)
Theorem check_website_replaces_last_status_iff_returns
        (cfg : Config) (w : World) (s : MonitorState) :
  match outcome (check_website cfg w s) with
  | Returned _ =>
      exists status,
        outcome (probe cfg w s) = Returned status
        /\ last_status (state_after (check_website cfg w s)) = Some status
  | Raised _ =>
      last_status (state_after (check_website cfg w s)) = last_status s
  end.
Proof.
  rewrite check_website_run.
  destruct (probe_frame cfg w s) as [Hlast _].
  destruct (probe cfg w s) as [[[status|ex] s1] t1];
    unfold outcome, state_after in *; cbn [fst snd] in *; [|exact Hlast].
  cbn zeta. destruct (should_report _ _ _).
  - destruct (report_status_frame cfg w status s1) as [Hs _].
    destruct (report_status cfg w status s1) as [[[[]|ex] s2] t3];
      unfold state_after in Hs; cbn [fst snd] in *.
    + exists status. split; reflexivity.
    + subst s2. exact Hlast.
  - exists status. split; reflexivity.
Qed.

(** ** What a cycle records and sends *)

Lemma probe_record (cfg : Config) (w : World) (s : MonitorState) (status : Status) :
  outcome (probe cfg w s) = Returned status ->
  response_time status = elapsed_ms w
  /\ timestamp status = now w
  /\ exists rest, message status = website_name cfg +:+ rest /\ rest <> EmptyString.
Proof.
  rewrite probe_run.
  destruct (session_get w (check_url cfg) 10) as [response|e]; cbn beta iota zeta.
  - destruct (_ && _); unfold outcome; cbn [fst]; intros H; injection H as <-;
      (split; [reflexivity|]); (split; [reflexivity|]);
      eexists; (split; [reflexivity|]); discriminate.
  - destruct (Exn.is_Exception e); unfold outcome; cbn [fst]; intros H;
      [|discriminate].
    injection H as <-. split; [reflexivity|]. split; [reflexivity|].
    eexists. split; [reflexivity|]. discriminate.
Qed.

(** X13. The probe fills the record on each of its three paths: the
    response time is the measured one (not the 0 of line 71), the
    timestamp is the instant taken when the cycle started, and the message
    is never the empty text of line 72: it begins with the display name
    and says more than that. *)
Theorem probe_fills_record
        (cfg : Config) (w : World) (s : MonitorState) (status : Status) :
  outcome (probe cfg w s) = Returned status ->
  response_time status = elapsed_ms w
  /\ timestamp status = now w
  /\ exists rest, message status = website_name cfg +:+ rest /\ rest <> EmptyString.
Proof. apply probe_record. Qed.

Lemma probe_fills_record_witness :
  outcome (probe Sample.cfg Sample.down initial_state) = Returned Sample.down_status
  /\ response_time Sample.down_status = elapsed_ms Sample.down
  /\ timestamp Sample.down_status = now Sample.down.
Proof.
  assert (H : outcome (probe Sample.cfg Sample.down initial_state)
              = Returned Sample.down_status) by reflexivity.
  split; [exact H|].
  destruct (probe_fills_record Sample.cfg Sample.down initial_state _ H)
    as (Htime & Hstamp & _).
  split; [exact Htime | exact Hstamp].
Defined.

Lemma probe_logs (cfg : Config) (w : World) (s : MonitorState) :
  forallb (fun ev => is_HttpGet ev || is_Print ev) (trace (probe cfg w s)) = true.
Proof.
  rewrite probe_run.
  destruct (session_get w (check_url cfg) 10) as [response|e]; cbn beta iota zeta.
  - destruct (_ && _); reflexivity.
  - destruct (Exn.is_Exception e); [|reflexivity].
    destruct (debug cfg); reflexivity.
Qed.

Lemma report_status_embeds (cfg : Config) (w : World) (status : Status)
      (s : MonitorState) (ev : event) :
  In ev (trace (report_status cfg w status s)) ->
  match ev with
  | ChannelSend _ e | UserSend _ e => e = status_embed cfg status
  | _ => True
  end.
Proof.
  rewrite report_status_run. cbn zeta.
  destruct (fetch_user w (user_id cfg)) as [[user|]|ex];
    destruct (get_channel w (status_channel_id cfg)) as [ch|];
    try (unfold trace; cbn [snd app In]; intros H;
         repeat destruct H as [H|H]; subst; try exact I; contradiction).
  destruct (channel_send w ch (status_embed cfg status)) as [[]|ex];
    try (unfold trace; cbn [snd app In]; intros H;
         repeat destruct H as [H|H]; subst; try exact I; try reflexivity;
         contradiction).
  destruct (user_send w user (status_embed cfg status)) as [[]|ex];
    [|destruct (Exn.is_Forbidden ex); [|destruct (Exn.is_Exception ex)]];
    unfold trace; cbn [snd app In]; intros H;
    repeat destruct H as [H|H]; subst; try exact I; try reflexivity;
    contradiction.
Qed.

(** X14. Whatever a cycle sends, to the channel or to the user, is the
    embed of the record its own probe just produced, never of an older
    one: the description is that record's message, the timestamp is this
    cycle's, and the colour is green exactly when the record is online. *)
Theorem check_website_sends_this_cycle
        (cfg : Config) (w : World) (s : MonitorState) (ev : event) (e : Embed) :
  In ev (trace (check_website cfg w s)) ->
  (exists ch, ev = ChannelSend ch e) \/ (exists u, ev = UserSend u e) ->
  exists status,
    outcome (probe cfg w s) = Returned status
    /\ e = status_embed cfg status
    /\ description e = message status
    /\ embed_timestamp e = now w
    /\ (color e = green <-> online status = true).
Proof.
  intros Hin Hsend.
  assert (Hnot : is_HttpGet ev || is_Print ev = false).
  { destruct Hsend as [[ch ->]|[u ->]]; reflexivity. }
  rewrite check_website_run in Hin.
  pose proof (probe_logs cfg w s) as Hlogs.
  pose proof (probe_record cfg w s) as Hrecord.
  destruct (probe cfg w s) as [[[status|ex] s1] t1];
    unfold trace, outcome in *; cbn [fst snd] in *.
  - assert (Hquiet : ~ In ev (t1 ++ (if debug cfg
                                      then [Print (message status)] else []))).
    { intros H. apply in_app_or in H as [H|H].
      - rewrite forallb_forall in Hlogs. rewrite (Hlogs ev H) in Hnot.
        discriminate.
      - destruct (debug cfg); [|contradiction].
        destruct H as [<-|[]]. discriminate Hnot. }
    cbn zeta in Hin.
    destruct (should_report _ _ _); [|contradiction].
    assert (Ht3 : In ev (trace (report_status cfg w status s1))).
    { destruct (report_status cfg w status s1) as [[[[]|ex] s2] t3];
        unfold trace; cbn [snd] in *;
        apply in_app_or in Hin as [H|H]; (contradiction || exact H). }
    pose proof (report_status_embeds cfg w status s1 ev Ht3) as Hembed.
    assert (He : e = status_embed cfg status).
    { destruct Hsend as [[ch ->]|[u ->]]; exact Hembed. }
    destruct (Hrecord status eq_refl) as (_ & Hstamp & _).
    exists status. split; [reflexivity|]. split; [exact He|].
    subst e. split; [reflexivity|]. split; [exact Hstamp|].
    cbn. destruct (online status); split; (reflexivity || discriminate).
  - rewrite forallb_forall in Hlogs. rewrite (Hlogs ev Hin) in Hnot.
    discriminate.
Qed.

Lemma check_website_sends_this_cycle_witness :
  let embed := status_embed Sample.cfg Sample.down_status in
  let ev := ChannelSend {| channel_id := 12 |} embed in
  In ev (trace (check_website Sample.cfg Sample.down initial_state))
  /\ exists status,
      outcome (probe Sample.cfg Sample.down initial_state) = Returned status
      /\ embed = status_embed Sample.cfg status.
Proof.
  cbv zeta.
  assert (Hin : In (ChannelSend {| channel_id := 12 |}
                      (status_embed Sample.cfg Sample.down_status))
                   (trace (check_website Sample.cfg Sample.down initial_state))).
  { do 5 right. left. reflexivity. }
  split; [exact Hin|].
  destruct (check_website_sends_this_cycle Sample.cfg Sample.down initial_state
              _ _ Hin (or_introl (ex_intro _ _ eq_refl)))
    as (status & Hprobe & Hembed & _).
  exists status. split; [exact Hprobe | exact Hembed].
Defined.

(** ** Reading the identifiers *)

(** [int] either returns the value of the literal or raises [ValueError]. *)
Lemma int_cases (text : string) :
  (exists n, int text = Returned n /\ int_literal text = Some n)
  \/ (exists e, int text = Raised e /\ Exn.cls e = Exn.ValueError).
Proof.
  destruct (int text) as [n|e] eqn:H.
  - left. exists n. split; [reflexivity|]. apply int_returned_literal, H.
  - right. exists e. split; [reflexivity|]. apply (int_raises_ValueError _ _ H).
Qed.



Lemma blank_cons (c : ascii) (s : string) :
  blank (String c s) <-> isspace c = true /\ blank s.
Proof.
  unfold blank. cbn [list_ascii_of_string].
  split; [intros H; inversion_clear H; split; assumption|].
  intros [Hc Hs]. constructor; assumption.
Qed.

(** Stripping a blank text leaves a blank text. *)
Lemma rstrip_blank (s : string) : blank s -> blank (rstrip s).
Proof.
  induction s as [|c s IH]; [intros H; exact H|].
  intros H. apply blank_cons in H as [Hc Hs]. specialize (IH Hs).
  cbn [rstrip]. destruct (rstrip s) as [|d r].
  - destruct (is_space c); [constructor|]. apply blank_cons. split; assumption.
  - apply blank_cons. split; assumption.
Qed.

Lemma lstrip_blank (s : string) : blank s -> blank (lstrip s).
Proof.
  induction s as [|c s IH]; [intros H; exact H|].
  intros H. pose proof H as Hall. apply blank_cons in H as [Hc Hs].
  cbn [lstrip]. destruct (is_space c); [apply IH, Hs | exact Hall].
Qed.

(** A blank text is no literal: it is empty or starts with a character
    that is neither a sign nor a digit. *)
Lemma int_literal_blank (s : string) : blank s -> int_literal s = None.
Proof.
  intros H. apply rstrip_blank, lstrip_blank in H.
  unfold int_literal. destruct (lstrip (rstrip s)) as [|c r]; [reflexivity|].
  apply blank_cons in H as [Hc _].
  destruct c as [b0 b1 b2 b3 b4 b5 b6 b7].
  destruct b0, b1, b2, b3, b4, b5, b6, b7;
    first [discriminate Hc | reflexivity].
Qed.

Lemma int_blank (s : string) :
  blank s -> exists e, int s = Raised e /\ Exn.cls e = Exn.ValueError.
Proof.
  intros H. destruct (int_cases s) as [(n & _ & Hn)|Hraise]; [|exact Hraise].
  rewrite (int_literal_blank s H) in Hn. discriminate.
Qed.

(** X16. A variable that is set but empty, or holds only whitespace, is
    no better than a missing one: if [STATUS_CHANNEL_ID] or [USER_ID] is
    such a text, building [CONFIG] raises [ValueError]. *)
Theorem CONFIG_blank_identifier_raises
        (environ : gmap string string) (value : string) :
  environ !! "STATUS_CHANNEL_ID" = Some value
  \/ environ !! "USER_ID" = Some value ->
  blank value ->
  exists e, CONFIG environ = Raised e /\ Exn.cls e = Exn.ValueError.
Proof.
  intros Hset Hblank.
  destruct (int_blank value Hblank) as (e & Hint & He).
  unfold CONFIG, getenv. destruct Hset as [H|H]; rewrite H.
  - rewrite Hint. exists e. split; [reflexivity|exact He].
  - set (channel := match environ !! "STATUS_CHANNEL_ID" with
                    | Some v => v
                    | None => "YOUR_PRIVATE_CHANNEL_ID"
                    end).
    destruct (int channel) as [id|other] eqn:Hc.
    + rewrite Hint. exists e. split; [reflexivity|exact He].
    + exists other. split; [reflexivity|]. apply (int_raises_ValueError _ _ Hc).
Qed.

Lemma CONFIG_blank_identifier_raises_witness :
  let environ := <["USER_ID" := " "]> Sample.environ in
  environ !! "USER_ID" = Some " "
  /\ blank " "
  /\ exists e, CONFIG environ = Raised e /\ Exn.cls e = Exn.ValueError.
Proof.
  cbv zeta.
  assert (Hset : (<["USER_ID" := " "]> Sample.environ : gmap string string)
                 !! "USER_ID" = Some " ") by reflexivity.
  assert (Hblank : blank " ") by (repeat constructor).
  split; [exact Hset|]. split; [exact Hblank|].
  exact (CONFIG_blank_identifier_raises _ " " (or_intror Hset) Hblank).
Defined.

(** ** [int] and the whitespace around a literal *)

Lemma whitespace_cons (c : ascii) (s : string) :
  whitespace (String c s) <-> is_space c = true /\ whitespace s.
Proof.
  unfold whitespace. cbn [list_ascii_of_string].
  split; [intros H; inversion_clear H; split; assumption|].
  intros [Hc Hs]. constructor; assumption.
Qed.

Lemma rstrip_whitespace (s : string) : whitespace s -> rstrip s = EmptyString.
Proof.
  induction s as [|c s IH]; [reflexivity|].
  intros H. apply whitespace_cons in H as [Hc Hs].
  cbn [rstrip]. rewrite (IH Hs), Hc. reflexivity.
Qed.

Lemma lstrip_whitespace_app (a s : string) :
  whitespace a -> lstrip (a +:+ s) = lstrip s.
Proof.
  induction a as [|c a IH]; [reflexivity|].
  intros H. apply whitespace_cons in H as [Hc Ha].
  change (String c a +:+ s) with (String c (a +:+ s)).
  cbn [lstrip]. rewrite Hc. apply IH, Ha.
Qed.

Lemma rstrip_app_whitespace (s b : string) :
  whitespace b -> rstrip (s +:+ b) = rstrip s.
Proof.
  intros Hb. induction s as [|c s IH].
  - apply rstrip_whitespace, Hb.
  - change (String c s +:+ b) with (String c (s +:+ b)).
    cbn [rstrip]. rewrite IH. reflexivity.
Qed.

Lemma rstrip_whitespace_app (a s : string) :
  whitespace a ->
  rstrip (a +:+ s) = match rstrip s with
                     | EmptyString => EmptyString
                     | r => a +:+ r
                     end.
Proof.
  induction a as [|c a IH]; intros H.
  - change (EmptyString +:+ s) with s. destruct (rstrip s); reflexivity.
  - apply whitespace_cons in H as [Hc Ha].
    change (String c a +:+ s) with (String c (a +:+ s)).
    cbn [rstrip]. rewrite (IH Ha).
    destruct (rstrip s) as [|d r]; [rewrite Hc; reflexivity|].
    destruct a; reflexivity.
Qed.

(** Whitespace on both sides is stripped with the text's own. *)
Lemma strip_surrounded (before s after : string) :
  whitespace before -> whitespace after ->
  lstrip (rstrip (before +:+ s +:+ after)) = lstrip (rstrip s).
Proof.
  intros Hb Ha.
  rewrite (rstrip_whitespace_app before _ Hb), (rstrip_app_whitespace s after Ha).
  destruct (rstrip s) as [|c r]; [reflexivity|].
  apply (lstrip_whitespace_app before _ Hb).
Qed.

(** X18. Whitespace around an identifier does no harm: a text [int]
    accepts is accepted with the same value when whitespace that [int]
    drops (tabs, newlines, spaces) is put before it and after it, as a
    value copied with a trailing newline or padded with spaces would be. *)
Theorem int_ignores_surrounding_whitespace (before s after : string) (n : Z) :
  whitespace before -> whitespace after ->
  int s = Returned n ->
  int (before +:+ s +:+ after) = Returned n.
Proof.
  intros Hb Ha. unfold int, int_literal, int_body.
  rewrite (strip_surrounded before s after Hb Ha).
  destruct (scanned_digits true 0 _) as [digits|];
    [destruct (int_max_str_digits <? digits); [discriminate|]|];
    destruct (match lstrip (rstrip s) with
              | String "-" s' => Z.opp <$> int_unsigned s'
              | String "+" s' => int_unsigned s'
              | t => int_unsigned t
              end);
    first [discriminate | intros H; exact H].
Qed.

Lemma int_ignores_surrounding_whitespace_witness :
  whitespace " "
  /\ int "12" = Returned 12
  /\ int (" " +:+ "12" +:+ " ") = Returned 12.
Proof.
  assert (Hspace : whitespace " ") by (repeat constructor).
  assert (Hint : int "12" = Returned 12) by reflexivity.
  split; [exact Hspace|]. split; [exact Hint|].
  exact (int_ignores_surrounding_whitespace " " "12" " " 12 Hspace Hspace Hint).
Defined.
